(** * Plant disease detection stub: [server/disease_detection.py]

    A shallow embedding of [model_prediction] and of the script's entry
    point, with the Python library calls the script makes modelled at the
    level the script observes them.

    Conventions.
    - A Python [str] is a Rocq [string]; a character stands for the code
      point of the same number, so characters from 128 on are the non-ASCII
      ones.
    - A Python exception is a class together with the text [str(e)].  The
      library calls made by the script raise instances of [Exception] only,
      which is what the handler of [model_prediction] catches.
    - Python integers are [Z]; [%] with a positive right operand is
      [Z.modulo]. *)

From Stdlib Require Import ZArith List String Ascii Bool Lia DecimalString.
Import ListNotations.

Open Scope string_scope.
Open Scope Z_scope.

(** ** Exceptions and the error monad *)

Inductive exc_class : Type :=
| ValueError
| BinasciiError
| IndexError
| KeyError
| LibraryError (qualname : string).

Record py_exception : Type := PyExc { exc_type : exc_class; exc_str : string }.

Inductive Exn (A : Type) : Type :=
| Return (a : A)
| Raise (e : py_exception).

Arguments Return {A} a.
Arguments Raise {A} e.

Definition bind {A B : Type} (m : Exn A) (k : A -> Exn B) : Exn B :=
  match m with
  | Return a => k a
  | Raise e => Raise e
  end.

Notation "x <- m ;; k" := (bind m (fun x => k))
  (at level 61, m at next level, right associativity).

(** ** Python objects that reach the result *)

Inductive pyobj : Type :=
| PyBool (b : bool)
| PyInt (n : Z)
| PyStr (s : string).

(** A [dict] keeps its keys in insertion order. *)
Definition pydict : Type := list (string * pyobj).

(** ** String methods used by the script *)

Module Str.

Definition code (c : ascii) : Z := Z.of_N (N_of_ascii c).
Definition chr (n : Z) : ascii := ascii_of_N (Z.to_N n).

Fixpoint startswith (p s : string) : bool :=
  match p, s with
  | EmptyString, _ => true
  | String a p', String b s' => Ascii.eqb a b && startswith p' s'
  | String _ _, EmptyString => false
  end.

Fixpoint rev_append (acc s : string) : string :=
  match acc with
  | EmptyString => s
  | String c acc' => rev_append acc' (String c s)
  end.

(** [s.split(sep)] for a non-empty [sep]: left to right, occurrences do
    not overlap.  [skip] counts the characters of the separator still to
    be dropped, [cur] is the current piece, last character first. *)
Fixpoint split_from (sep : string) (skip : nat) (cur s : string) : list string :=
  match s with
  | EmptyString => [rev_append cur EmptyString]
  | String c s' =>
      match skip with
      | S k => split_from sep k cur s'
      | O =>
          if startswith sep s
          then rev_append cur EmptyString
               :: split_from sep (String.length sep - 1) EmptyString s'
          else split_from sep O (String c cur) s'
      end
  end.

Definition split (s sep : string) : list string := split_from sep O EmptyString s.

(** [s.replace(old, new)] for one-character [old] and [new]. *)
Fixpoint replace (s : string) (old new : ascii) : string :=
  match s with
  | EmptyString => EmptyString
  | String c s' => String (if Ascii.eqb c old then new else c) (replace s' old new)
  end.

(** [s.lower()] on code points below 256: the ASCII capitals and the
    Latin-1 capitals (192 to 222, the multiplication sign 215 apart). *)
Definition lower_char (c : ascii) : ascii :=
  let n := code c in
  if ((65 <=? n) && (n <=? 90)) || ((192 <=? n) && (n <=? 222) && negb (n =? 215))
  then chr (n + 32) else c.

Fixpoint lower (s : string) : string :=
  match s with
  | EmptyString => EmptyString
  | String c s' => String (lower_char c) (lower s')
  end.

(** [sub in s]. *)
Fixpoint contains (sub s : string) : bool :=
  startswith sub s ||
  match s with
  | EmptyString => false
  | String _ s' => contains sub s'
  end.

Definition of_nat (n : nat) : string := NilZero.string_of_uint (Nat.to_uint n).
Definition of_Z (n : Z) : string := NilZero.string_of_int (Z.to_int n).

End Str.

(** ** Sequence and mapping access *)

(** [l[i]]: a negative index counts from the end; out of range raises. *)
Definition list_getitem {A : Type} (l : list A) (i : Z) : Exn A :=
  let n := Z.of_nat (List.length l) in
  let j := if i <? 0 then i + n else i in
  if (j <? 0) || (n <=? j)
  then Raise (PyExc IndexError "list index out of range")
  else match nth_error l (Z.to_nat j) with
       | Some x => Return x
       | None => Raise (PyExc IndexError "list index out of range")
       end.

Fixpoint dict_find {V : Type} (d : list (string * V)) (k : string) : option V :=
  match d with
  | [] => None
  | (k', v) :: d' => if String.eqb k' k then Some v else dict_find d' k
  end.

(** [d.get(k, default)]. *)
Definition dict_get {V : Type} (d : list (string * V)) (k : string) (default : V) : V :=
  match dict_find d k with
  | Some v => v
  | None => default
  end.

(** [d[k]]; [str] of a [KeyError] is the [repr] of the key. *)
Definition dict_getitem {V : Type} (d : list (string * V)) (k : string) : Exn V :=
  match dict_find d k with
  | Some v => Return v
  | None => Raise (PyExc KeyError ("'" ++ k ++ "'"))
  end.

(** ** The tables of [model_prediction] *)

Definition class_names : list string :=
  [ "Apple__Apple_scab"; "Apple__Black_rot"; "Apple__Cedar_apple_rust"; "Apple__healthy";
    "Blueberry__healthy"; "Cherry__Powdery_mildew"; "Cherry__healthy";
    "Corn__Cercospora_leaf_spot"; "Corn__Common_rust"; "Corn__Northern_Leaf_Blight";
    "Corn__healthy"; "Grape__Black_rot"; "Grape__Esca"; "Grape__Leaf_blight";
    "Grape__healthy"; "Orange__Huanglongbing"; "Peach__Bacterial_spot"; "Peach__healthy";
    "Pepper__Bacterial_spot"; "Pepper__healthy"; "Potato__Early_blight"; "Potato__Late_blight";
    "Potato__healthy"; "Raspberry__healthy"; "Soybean__healthy"; "Squash__Powdery_mildew";
    "Strawberry__Leaf_scorch"; "Strawberry__healthy"; "Tomato__Bacterial_spot";
    "Tomato__Early_blight"; "Tomato__Late_blight"; "Tomato__Leaf_Mold";
    "Tomato__Septoria_leaf_spot"; "Tomato__Spider_mites"; "Tomato__Target_Spot";
    "Tomato__Yellow_Leaf_Curl_Virus"; "Tomato__Mosaic_virus"; "Tomato__healthy" ].

Definition info_dict : Type := list (string * string).

Definition disease_info : list (string * info_dict) :=
  [ ("Apple scab",
     [ ("description", "Fungal disease causing olive-green velvety spots on leaves and fruits");
       ("prevention", "Use resistant varieties, ensure good air circulation, apply fungicide sprays");
       ("treatment", "Apply Captan or Mancozeb fungicide, prune infected areas") ]);
    ("Black rot",
     [ ("description", "Fungal disease causing black circular lesions on fruits and leaves");
       ("prevention", "Remove infected plant debris, ensure proper spacing, avoid overhead watering");
       ("treatment", "Apply copper-based fungicides, remove infected fruits immediately") ]);
    ("Late blight",
     [ ("description", "Devastating fungal disease causing water-soaked spots and plant death");
       ("prevention", "Use resistant varieties, avoid overhead irrigation, ensure good drainage");
       ("treatment", "Apply Metalaxyl or copper-based fungicides, destroy infected plants") ]);
    ("Early blight",
     [ ("description", "Fungal disease causing brown concentric rings on older leaves");
       ("prevention", "Rotate crops, avoid overhead watering, maintain plant spacing");
       ("treatment", "Apply Chlorothalonil or Mancozeb fungicide sprays") ]);
    ("Powdery mildew",
     [ ("description", "Fungal disease causing white powdery coating on leaves");
       ("prevention", "Ensure good air circulation, avoid overhead watering, plant in sunny locations");
       ("treatment", "Apply sulfur-based fungicides or neem oil") ]) ].

(** The default passed to [disease_info.get]. *)
Definition default_info (disease_name plant_name : string) : info_dict :=
  [ ("description", disease_name ++ " affecting " ++ plant_name);
    ("prevention", "Maintain good plant hygiene, use resistant varieties, ensure proper spacing");
    ("treatment", "Consult agricultural extension services for specific treatment recommendations") ].

Definition severity_of (disease_name : string) : string :=
  if Str.contains "blight" (Str.lower disease_name) then "High" else "Medium".

(** Lines 31 to 98 of the script: everything after [result_index] is known. *)
Definition classify (result_index : Z) : Exn pydict :=
  predicted_class <- list_getitem class_names result_index ;;
  plant_name <- list_getitem (Str.split predicted_class "__") 0 ;;
  disease_raw <- list_getitem (Str.split predicted_class "__") 1 ;;
  let disease_name := Str.replace disease_raw "_" " " in
  let info := dict_get disease_info disease_name (default_info disease_name plant_name) in
  let confidence := 85 + result_index mod 15 in
  description <- dict_getitem info "description" ;;
  prevention <- dict_getitem info "prevention" ;;
  treatment <- dict_getitem info "treatment" ;;
  Return [ ("success", PyBool true);
           ("plant", PyStr plant_name);
           ("disease", PyStr disease_name);
           ("confidence", PyInt confidence);
           ("description", PyStr description);
           ("prevention", PyStr prevention);
           ("treatment", PyStr treatment);
           ("severity", PyStr (severity_of disease_name)) ].

(** ** [base64.b64decode(s)] with its defaults ([altchars=None],
    [validate=False])

    The function encodes a [str] argument as ASCII and hands the bytes to
    [binascii.a2b_base64], modelled here as in CPython 3.11 outside strict
    mode. *)

Module Base64.

Definition BASE64_PAD : Z := 61.

(** [table_a2b_base64]: the value of a character of the alphabet, 64 for
    every other character. *)
Definition table_a2b_base64 (c : Z) : Z :=
  if (65 <=? c) && (c <=? 90) then c - 65
  else if (97 <=? c) && (c <=? 122) then c - 97 + 26
  else if (48 <=? c) && (c <=? 57) then c - 48 + 52
  else if c =? 43 then 62
  else if c =? 47 then 63
  else 64.

Definition to_byte (n : Z) : Byte.byte :=
  match Byte.of_N (Z.to_N (Z.land n 255)) with
  | Some b => b
  | None => Byte.x00
  end.

(** How the loop of [binascii.a2b_base64] is left. *)
Inductive loop_exit : Type :=
| Goto_done (bin_data : list Byte.byte)
| Loop_end (quad_pos : Z) (bin_data : list Byte.byte).

(** The loop of [a2b_base64] outside strict mode. *)
Fixpoint a2b_loop (ascii_data : list Z) (quad_pos leftchar pads : Z)
         (bin_data : list Byte.byte) : loop_exit :=
  match ascii_data with
  | [] => Loop_end quad_pos bin_data
  | this_ch :: rest =>
      if this_ch =? BASE64_PAD then
        if 2 <=? quad_pos then
          if 4 <=? quad_pos + (pads + 1) then Goto_done bin_data
          else a2b_loop rest quad_pos leftchar (pads + 1) bin_data
        else a2b_loop rest quad_pos leftchar pads bin_data
      else
        let this_ch := table_a2b_base64 this_ch in
        if 64 <=? this_ch then a2b_loop rest quad_pos leftchar pads bin_data
        else if quad_pos =? 0 then
          a2b_loop rest 1 this_ch 0 bin_data
        else if quad_pos =? 1 then
          a2b_loop rest 2 (Z.land this_ch 15) 0
            (bin_data ++ [to_byte (Z.lor (Z.shiftl leftchar 2) (Z.shiftr this_ch 4))])
        else if quad_pos =? 2 then
          a2b_loop rest 3 (Z.land this_ch 3) 0
            (bin_data ++ [to_byte (Z.lor (Z.shiftl leftchar 4) (Z.shiftr this_ch 2))])
        else
          a2b_loop rest 0 0 0
            (bin_data ++ [to_byte (Z.lor (Z.shiftl leftchar 6) this_ch)])
  end.

Definition a2b_base64 (data : list Z) : Exn (list Byte.byte) :=
  match a2b_loop data 0 0 0 [] with
  | Goto_done bin_data => Return bin_data
  | Loop_end quad_pos bin_data =>
      if quad_pos =? 0 then Return bin_data
      else if quad_pos =? 1 then
        Raise (PyExc BinasciiError
                 ("Invalid base64-encoded string: number of data characters ("
                  ++ Str.of_nat (List.length bin_data / 3 * 4 + 1)
                  ++ ") cannot be 1 more than a multiple of 4"))
      else Raise (PyExc BinasciiError "Incorrect padding")
  end.

Definition codes (s : string) : list Z := map Str.code (list_ascii_of_string s).

(** [_bytes_from_decode_data] on a [str]: [s.encode('ascii')]. *)
Definition bytes_from_decode_data (s : string) : Exn (list Z) :=
  if forallb (fun c => c <? 128) (codes s) then Return (codes s)
  else Raise (PyExc ValueError "string argument should contain only ASCII characters").

Definition b64decode (s : string) : Exn (list Byte.byte) :=
  data <- bytes_from_decode_data s ;;
  a2b_base64 data.

(** *** Standard base64 (RFC 4648, section 4), for comparison

    Groups of four characters of the alphabet; the last group may end in
    one or two pad characters. *)
Definition in_alphabet (c : Z) : bool := table_a2b_base64 c <? 64.

Fixpoint is_standard_codes (l : list Z) : bool :=
  match l with
  | [] => true
  | [a; b; c; d] =>
      in_alphabet a && in_alphabet b &&
      ((in_alphabet c && (in_alphabet d || (d =? BASE64_PAD)))
       || ((c =? BASE64_PAD) && (d =? BASE64_PAD)))
  | a :: b :: c :: d :: rest =>
      in_alphabet a && in_alphabet b && in_alphabet c && in_alphabet d
      && is_standard_codes rest
  | _ => false
  end.

Definition is_standard_base64 (s : string) : bool := is_standard_codes (codes s).

End Base64.

(** ** The built-in [hash] on a [str]

    CPython hashes the characters of a [str] with SipHash-1-3 (the default
    since 3.11; SipHash-2-4 before), keyed by a secret that the interpreter
    draws when it starts: from the operating system's random source, or from
    the environment variable [PYTHONHASHSEED] when it is set.  The secret is
    fixed for the life of one process. *)

Module PyHash.

Definition u64 (x : Z) : Z := x mod 2 ^ 64.
Definition ROTATE (x b : Z) : Z := u64 (Z.lor (Z.shiftl x b) (Z.shiftr x (64 - b))).

(** The four state words [v0], [v1], [v2], [v3]. *)
Definition sip_state : Type := (Z * Z * Z * Z)%type.

Definition SINGLE_ROUND (v : sip_state) : sip_state :=
  let '(v0, v1, v2, v3) := v in
  (* HALF_ROUND(v0,v1,v2,v3,13,16) *)
  let v0 := u64 (v0 + v1) in
  let v2 := u64 (v2 + v3) in
  let v1 := Z.lxor (ROTATE v1 13) v0 in
  let v3 := Z.lxor (ROTATE v3 16) v2 in
  let v0 := ROTATE v0 32 in
  (* HALF_ROUND(v2,v1,v0,v3,17,21) *)
  let v2 := u64 (v2 + v1) in
  let v0 := u64 (v0 + v3) in
  let v1 := Z.lxor (ROTATE v1 17) v2 in
  let v3 := Z.lxor (ROTATE v3 21) v0 in
  let v2 := ROTATE v2 32 in
  (v0, v1, v2, v3).

(** Little-endian value of a run of bytes. *)
Fixpoint le_word (bytes : list Z) : Z :=
  match bytes with
  | [] => 0
  | b :: rest => Z.lor b (Z.shiftl (le_word rest) 8)
  end.

Definition absorb (v : sip_state) (mi : Z) : sip_state :=
  let '(v0, v1, v2, v3) := v in
  let '(v0, v1, v2, v3) := SINGLE_ROUND (v0, v1, v2, Z.lxor v3 mi) in
  (Z.lxor v0 mi, v1, v2, v3).

(** The [while (src_sz >= 8)] loop, then the tail of fewer than eight
    bytes; the result is the state and the tail word [t]. *)
Fixpoint absorb_words (v : sip_state) (src : list Z) : sip_state * Z :=
  match src with
  | b0 :: b1 :: b2 :: b3 :: b4 :: b5 :: b6 :: b7 :: rest =>
      absorb_words (absorb v (le_word [b0; b1; b2; b3; b4; b5; b6; b7])) rest
  | tail => (v, le_word tail)
  end.

Definition siphash13 (k0 k1 : Z) (src : list Z) : Z :=
  let b := u64 (Z.shiftl (Z.of_nat (List.length src)) 56) in
  let v := (Z.lxor k0 0x736f6d6570736575, Z.lxor k1 0x646f72616e646f6d,
            Z.lxor k0 0x6c7967656e657261, Z.lxor k1 0x7465646279746573) in
  let '(v, t) := absorb_words v src in
  let b := Z.lor b t in
  let '(v0, v1, v2, v3) := absorb v b in
  let '(v0, v1, v2, v3) :=
    SINGLE_ROUND (SINGLE_ROUND (SINGLE_ROUND (v0, v1, Z.lxor v2 0xff, v3))) in
  Z.lxor (Z.lxor v0 v1) (Z.lxor v2 v3).

(** The cast to the signed [Py_hash_t]. *)
Definition to_signed (x : Z) : Z := if x <? 2 ^ 63 then x else x - 2 ^ 64.

(** [_Py_HashBytes]. *)
Definition Py_HashBytes (k0 k1 : Z) (src : list Z) : Z :=
  match src with
  | [] => 0
  | _ =>
      let x := to_signed (siphash13 k0 k1 src) in
      if x =? -1 then -2 else x
  end.

(** The interpreter's secret: the two key words of SipHash. *)
Record hash_secret : Type := HashSecret { k0 : Z; k1 : Z }.

(** [hash(s)] for a [str] of code points below 256, stored one byte per
    character. *)
Definition hash (secret : hash_secret) (s : string) : Z :=
  Py_HashBytes (k0 secret) (k1 secret) (map Str.code (list_ascii_of_string s)).

(** [lcg_urandom]: the bytes of the secret under [PYTHONHASHSEED=x0]. *)
Fixpoint lcg_urandom (x : Z) (size : nat) : list Z :=
  match size with
  | O => []
  | S size' =>
      let x := (x * 214013 + 2531011) mod 2 ^ 32 in
      Z.land (Z.shiftr x 16) 255 :: lcg_urandom x size'
  end.

(** The secret of a process started with [PYTHONHASHSEED=seed]; seed 0
    switches the randomisation off. *)
Definition secret_of_seed (seed : Z) : hash_secret :=
  if seed =? 0 then HashSecret 0 0
  else
    let bytes := lcg_urandom seed 24 in
    HashSecret (le_word (firstn 8 bytes)) (le_word (firstn 8 (skipn 8 bytes))).

End PyHash.

(** ** The imaging and array libraries

    Pillow and NumPy are outside the script; it sees them through the calls
    below.  Pixel data and floating-point numbers stay abstract, and every
    call may raise. *)

Class Imaging : Type := {
  Image : Type;
  ndarray : Type;
  float64 : Type;
  (** [Image.open(io.BytesIO(image_bytes))] *)
  Image_open : list Byte.byte -> Exn Image;
  (** [image.resize(size)] *)
  Image_resize : Image -> Z * Z -> Exn Image;
  (** [image.convert(mode)] *)
  Image_convert : Image -> string -> Exn Image;
  (** [np.array(image)] *)
  np_array : Image -> Exn ndarray;
  (** [np.array([input_arr]) / 255.0] *)
  np_batch_scale : ndarray -> Exn ndarray;
  (** [input_arr.mean()] *)
  ndarray_mean : ndarray -> Exn float64;
  (** [str(x)] *)
  float_str : float64 -> string
}.

(** ** [model_prediction] *)

Section Prediction.

Context {lib : Imaging}.

(** The built-in [hash] of the running interpreter. *)
Variable hash : string -> Z.

(** Lines 11 to 29, up to [str(input_arr.mean())]. *)
Definition mean_text (image_data : string) : Exn string :=
  image_bytes <- Base64.b64decode image_data ;;
  image <- Image_open image_bytes ;;
  image <- Image_resize image (128, 128) ;;
  image <- Image_convert image "RGB" ;;
  input_arr <- np_array image ;;
  input_arr <- np_batch_scale input_arr ;;
  m <- ndarray_mean input_arr ;;
  Return (float_str m).

(** The body of the [try] statement. *)
Definition try_block (image_data : string) : Exn pydict :=
  text <- mean_text image_data ;;
  let result_index := hash text mod 38 in
  classify result_index.

(** The dictionary built by the [except Exception as e] clause. *)
Definition failure (e : py_exception) : pydict :=
  [ ("success", PyBool false);
    ("error", PyStr ("Disease detection failed: " ++ exc_str e)) ].

Definition model_prediction (image_data : string) : pydict :=
  match try_block image_data with
  | Return result => result
  | Raise e => failure e
  end.

End Prediction.

(** ** [json.dumps] with its defaults, on the dictionaries of the script *)

Module Json.

Definition dquote : ascii := ascii_of_nat 34.
Definition backslash : ascii := ascii_of_nat 92.

Definition hex_digit (n : Z) : ascii :=
  if n <? 10 then Str.chr (48 + n) else Str.chr (97 + (n - 10)).

(** One character under [ensure_ascii=True]. *)
Definition escape_char (c : ascii) : string :=
  let n := Str.code c in
  if n =? 34 then String backslash (String dquote EmptyString)
  else if n =? 92 then String backslash (String backslash EmptyString)
  else if n =? 10 then String backslash "n"
  else if n =? 13 then String backslash "r"
  else if n =? 9 then String backslash "t"
  else if n =? 12 then String backslash "f"
  else if n =? 8 then String backslash "b"
  else if (32 <=? n) && (n <=? 126) then String c EmptyString
  else String backslash
         (String "u" (String "0" (String "0"
            (String (hex_digit (n / 16)) (String (hex_digit (n mod 16)) EmptyString))))).

Fixpoint escape (s : string) : string :=
  match s with
  | EmptyString => EmptyString
  | String c s' => escape_char c ++ escape s'
  end.

Definition encode_str (s : string) : string :=
  String dquote (escape s ++ String dquote EmptyString).

Definition encode (v : pyobj) : string :=
  match v with
  | PyBool true => "true"
  | PyBool false => "false"
  | PyInt n => Str.of_Z n
  | PyStr s => encode_str s
  end.

Fixpoint items (d : pydict) : string :=
  match d with
  | [] => EmptyString
  | [(k, v)] => encode_str k ++ ": " ++ encode v
  | (k, v) :: d' => encode_str k ++ ": " ++ encode v ++ ", " ++ items d'
  end.

Definition dumps (d : pydict) : string := "{" ++ items d ++ "}".

End Json.

(** ** The entry point *)

(** What a run of the script does that can be seen from outside the
    function: the calls of [model_prediction] and the lines printed. *)
Inductive event : Type :=
| Called_model_prediction (image_data : string)
| Printed (text : string).

Record process_run : Type := ProcessRun { events : list event; exit_status : Z }.

Fixpoint stdout (evs : list event) : string :=
  match evs with
  | [] => EmptyString
  | Printed text :: evs' => text ++ String (ascii_of_nat 10) (stdout evs')
  | Called_model_prediction _ :: evs' => stdout evs'
  end.

Section Main.

Context {lib : Imaging}.
Variable hash : string -> Z.

(** The [if __name__ == "__main__"] block, from [sys.argv].  An exception
    that leaves the block ends the process with status 1. *)
Definition main (argv : list string) : process_run :=
  if 1 <? Z.of_nat (List.length argv) then
    match list_getitem argv 1 with
    | Return image_data =>
        let result := model_prediction hash image_data in
        ProcessRun [Called_model_prediction image_data; Printed (Json.dumps result)] 0
    | Raise _ => ProcessRun [] 1
    end
  else
    ProcessRun
      [Printed (Json.dumps [("success", PyBool false);
                            ("error", PyStr "No image data provided")])] 0.

End Main.

(** ** A stand-in for the libraries

    Used to run the statements below on concrete inputs.  It accepts data
    that starts with the PNG signature and reports the mean of an image of
    pure red, one third. *)

Module Fixture.

Definition png_signature : list Byte.byte :=
  [Byte.x89; Byte.x50; Byte.x4e; Byte.x47; Byte.x0d; Byte.x0a; Byte.x1a; Byte.x0a].

Fixpoint bytes_eqb (a b : list Byte.byte) : bool :=
  match a, b with
  | [], [] => true
  | x :: a', y :: b' => Byte.eqb x y && bytes_eqb a' b'
  | _, _ => false
  end.

Definition open (image_bytes : list Byte.byte) : Exn (list Byte.byte) :=
  if bytes_eqb (firstn 8 image_bytes) png_signature then Return image_bytes
  else Raise (PyExc (LibraryError "PIL.UnidentifiedImageError") "cannot identify image file").

#[local] Instance imaging : Imaging := {|
  Image := list Byte.byte;
  ndarray := unit;
  float64 := unit;
  Image_open := open;
  Image_resize := fun image _ => Return image;
  Image_convert := fun image _ => Return image;
  np_array := fun _ => Return tt;
  np_batch_scale := fun _ => Return tt;
  ndarray_mean := fun _ => Return tt;
  float_str := fun _ => "0.3333333333333333"
|}.

(** The base64 text of a 10 by 10 PNG image of pure red. *)
Definition red_png : string :=
  "iVBORw0KGgoAAAANSUhEUgAAAAoAAAAKCAIAAAACUFjqAAAAEklEQVR42mP4z8CABzGMSmNDALfKY53W1e90AAAAAElFTkSuQmCC".

End Fixture.

(** The keys of the dictionary returned on success, in order. *)
Definition result_keys : list string :=
  ["success"; "plant"; "disease"; "confidence"; "description"; "prevention";
   "treatment"; "severity"].

(** The diseases that have an entry of their own in [disease_info]. *)
Definition known_diseases : list string :=
  ["Apple scab"; "Black rot"; "Late blight"; "Early blight"; "Powdery mildew"].

(** The fixed texts of the default record. *)
Definition generic_prevention : string :=
  "Maintain good plant hygiene, use resistant varieties, ensure proper spacing".
Definition generic_treatment : string :=
  "Consult agricultural extension services for specific treatment recommendations".

(** A character that [b64decode] steps over: ASCII, outside the alphabet,
    and not the pad character. *)
Definition is_discarded (c : ascii) : bool :=
  (Str.code c <? 128) && negb (Base64.in_alphabet (Str.code c))
  && negb (Str.code c =? Base64.BASE64_PAD).

(** [PYTHONHASHSEED=0] and [PYTHONHASHSEED=3]: two interpreter processes. *)
Definition hash_seed0 : string -> Z := PyHash.hash (PyHash.secret_of_seed 0).
Definition hash_seed3 : string -> Z := PyHash.hash (PyHash.secret_of_seed 3).

(** [raised_in_step image_data e]: one of the steps of the [try] body
    raises [e], the steps before it having returned. *)
Inductive raised_in_step {lib : Imaging} (hash : string -> Z)
          (image_data : string) (e : py_exception) : Prop :=
| Raised_in_b64decode :
    Base64.b64decode image_data = Raise e -> raised_in_step hash image_data e
| Raised_in_open image_bytes :
    Base64.b64decode image_data = Return image_bytes ->
    Image_open image_bytes = Raise e -> raised_in_step hash image_data e
| Raised_in_resize image_bytes image :
    Base64.b64decode image_data = Return image_bytes ->
    Image_open image_bytes = Return image ->
    Image_resize image (128, 128) = Raise e -> raised_in_step hash image_data e
| Raised_in_convert image_bytes image resized :
    Base64.b64decode image_data = Return image_bytes ->
    Image_open image_bytes = Return image ->
    Image_resize image (128, 128) = Return resized ->
    Image_convert resized "RGB" = Raise e -> raised_in_step hash image_data e
| Raised_in_array image_bytes image resized rgb :
    Base64.b64decode image_data = Return image_bytes ->
    Image_open image_bytes = Return image ->
    Image_resize image (128, 128) = Return resized ->
    Image_convert resized "RGB" = Return rgb ->
    np_array rgb = Raise e -> raised_in_step hash image_data e
| Raised_in_scale image_bytes image resized rgb input_arr :
    Base64.b64decode image_data = Return image_bytes ->
    Image_open image_bytes = Return image ->
    Image_resize image (128, 128) = Return resized ->
    Image_convert resized "RGB" = Return rgb ->
    np_array rgb = Return input_arr ->
    np_batch_scale input_arr = Raise e -> raised_in_step hash image_data e
| Raised_in_mean image_bytes image resized rgb input_arr batch :
    Base64.b64decode image_data = Return image_bytes ->
    Image_open image_bytes = Return image ->
    Image_resize image (128, 128) = Return resized ->
    Image_convert resized "RGB" = Return rgb ->
    np_array rgb = Return input_arr ->
    np_batch_scale input_arr = Return batch ->
    ndarray_mean batch = Raise e -> raised_in_step hash image_data e
| Raised_in_lookups text :
    mean_text image_data = Return text ->
    classify (hash text mod 38) = Raise e -> raised_in_step hash image_data e.

(** ** Notions used to state further properties *)

(** The input is made of ASCII characters. *)
Definition is_ascii_text (s : string) : bool :=
  forallb (fun c => c <? 128) (Base64.codes s).

(** The characters of the input that belong to the base64 alphabet. *)
Definition data_characters (s : string) : list Z :=
  filter Base64.in_alphabet (Base64.codes s).

(** The pad characters of the input. *)
Definition pad_characters (s : string) : list Z :=
  filter (fun c => c =? Base64.BASE64_PAD) (Base64.codes s).

(** [sep.join(pieces)]: what [split] is undone with. *)
Fixpoint str_join (sep : string) (pieces : list string) : string :=
  match pieces with
  | [] => EmptyString
  | [piece] => piece
  | piece :: rest => piece ++ sep ++ str_join sep rest
  end.

(** A character that [json.dumps] may write: printable ASCII. *)
Definition printable (c : ascii) : bool :=
  (32 <=? Str.code c) && (Str.code c <=? 126).

Definition all_printable (s : string) : bool :=
  forallb printable (list_ascii_of_string s).

(** [l.index(x)], counting from [i]. *)
Fixpoint list_index (l : list string) (x : string) (i : Z) : option Z :=
  match l with
  | [] => None
  | y :: l' => if String.eqb y x then Some i else list_index l' x (i + 1)
  end.

(** The index in [class_names] that a result was built from, read back
    from its plant and disease. *)
Definition class_index (r : pydict) : option Z :=
  match dict_find r "plant", dict_find r "disease" with
  | Some (PyStr plant), Some (PyStr disease) =>
      list_index class_names (plant ++ "__" ++ Str.replace disease " " "_") 0
  | _, _ => None
  end.

(** Reading back what [Json.escape] writes for strings of code points
    below 256: plain characters, the two-character escapes and the escapes
    [\u00XX].  An escape [\uXXXX] of a code point from 256 on has no
    counterpart among the strings modelled; reading stops at it. *)
Definition hex_value (c : ascii) : Z :=
  if Str.code c <? 58 then Str.code c - 48
  else if Str.code c <? 71 then Str.code c - 55
  else Str.code c - 87.

Definition unescape_tag (t : ascii) : ascii :=
  if Ascii.eqb t "n" then ascii_of_nat 10
  else if Ascii.eqb t "r" then ascii_of_nat 13
  else if Ascii.eqb t "t" then ascii_of_nat 9
  else if Ascii.eqb t "f" then ascii_of_nat 12
  else if Ascii.eqb t "b" then ascii_of_nat 8
  else t.

Fixpoint json_unescape (s : string) : string :=
  match s with
  | EmptyString => EmptyString
  | String c s1 =>
      if Ascii.eqb c Json.backslash then
        match s1 with
        | EmptyString => EmptyString
        | String t s2 =>
            if Ascii.eqb t "u" then
              match s2 with
              | String z1 (String z2 (String h (String l s3))) =>
                  if Ascii.eqb z1 "0" && Ascii.eqb z2 "0"
                  then String (Str.chr (16 * hex_value h + hex_value l))
                              (json_unescape s3)
                  else EmptyString
              | _ => EmptyString
              end
            else String (unescape_tag t) (json_unescape s2)
        end
      else String c (json_unescape s1)
  end.

(** * Properties *)

(** ** The library models on known values *)

Example classify_20 :
  classify 20 =
  Return [ ("success", PyBool true); ("plant", PyStr "Potato");
           ("disease", PyStr "Early blight"); ("confidence", PyInt 90);
           ("description", PyStr "Fungal disease causing brown concentric rings on older leaves");
           ("prevention", PyStr "Rotate crops, avoid overhead watering, maintain plant spacing");
           ("treatment", PyStr "Apply Chlorothalonil or Mancozeb fungicide sprays");
           ("severity", PyStr "High") ].
Proof. reflexivity. Qed.

Example split_examples :
  Str.split "a___b" "__" = ["a"; "_b"] /\
  Str.split "Apple__Apple_scab" "__" = ["Apple"; "Apple_scab"] /\
  Str.split "x" "__" = ["x"] /\
  Str.split "a__b__" "__" = ["a"; "b"; EmptyString].
Proof. repeat split; reflexivity. Qed.

Example b64decode_examples :
  Base64.b64decode "AAAA" = Return [Byte.x00; Byte.x00; Byte.x00] /\
  Base64.b64decode "AA==" = Return [Byte.x00] /\
  Base64.b64decode "AB=C=" = Return [Byte.x00; Byte.x10] /\
  Base64.b64decode "AA==AAAA" = Return [Byte.x00] /\
  Base64.b64decode "=AAAA" = Return [Byte.x00; Byte.x00; Byte.x00] /\
  Base64.b64decode "aGVsbG8=" = Return [Byte.x68; Byte.x65; Byte.x6c; Byte.x6c; Byte.x6f] /\
  Base64.b64decode "AA=A" = Raise (PyExc BinasciiError "Incorrect padding") /\
  Base64.b64decode "AAA" = Raise (PyExc BinasciiError "Incorrect padding") /\
  Base64.b64decode "A===" =
    Raise (PyExc BinasciiError
      "Invalid base64-encoded string: number of data characters (1) cannot be 1 more than a multiple of 4") /\
  Base64.b64decode "AAAAAAAAA" =
    Raise (PyExc BinasciiError
      "Invalid base64-encoded string: number of data characters (9) cannot be 1 more than a multiple of 4").
Proof. repeat split; reflexivity. Qed.

Example hash_examples :
  PyHash.hash (PyHash.secret_of_seed 0) "a" = 4644417185603328019 /\
  PyHash.hash (PyHash.secret_of_seed 0) "0.3333333333333333" = -2373939558950096479 /\
  PyHash.hash (PyHash.secret_of_seed 3) "0.3333333333333333" = 3919507910014038336 /\
  PyHash.hash (PyHash.secret_of_seed 1) "a" = -3012895188637184397 /\
  PyHash.hash (PyHash.secret_of_seed 2) EmptyString = 0.
Proof. repeat split; vm_compute; reflexivity. Qed.

Example red_png_mean_text :
  @mean_text Fixture.imaging Fixture.red_png = Return "0.3333333333333333".
Proof. vm_compute. reflexivity. Qed.

(** ** Ranges of indices *)

Lemma index_cases (i : Z) :
  0 <= i < 38 -> In i (map Z.of_nat (seq 0 38)).
Proof.
  intros Hi. rewrite <- (Z2Nat.id i) by lia.
  apply in_map, in_seq. lia.
Qed.

(** Runs a tactic on each of the 38 indices. *)
Ltac each_index H tac :=
  apply index_cases in H; simpl in H;
  repeat (destruct H as [H | H]; [subst; tac | ]);
  try contradiction.

Lemma hash_index_range (h : Z) : 0 <= h mod 38 < 38.
Proof. apply Z.mod_pos_bound. lia. Qed.

(** ** The shape of a result *)

Lemma bind_Return {A B : Type} (m : Exn A) (k : A -> Exn B) (b : B) :
  bind m k = Return b -> exists a, m = Return a /\ k a = Return b.
Proof.
  destruct m as [a | e]; simpl; intros H; [eauto | discriminate].
Qed.

(** Whatever [classify] returns was built by the dictionary display of
    lines 87 to 96 from one class name. *)
Lemma classify_inv (i : Z) (r : pydict) :
  classify i = Return r ->
  exists predicted_class plant_name disease_raw description prevention treatment,
    list_getitem class_names i = Return predicted_class /\
    list_getitem (Str.split predicted_class "__") 0 = Return plant_name /\
    list_getitem (Str.split predicted_class "__") 1 = Return disease_raw /\
    let disease_name := Str.replace disease_raw "_" " " in
    let info := dict_get disease_info disease_name (default_info disease_name plant_name) in
    dict_getitem info "description" = Return description /\
    dict_getitem info "prevention" = Return prevention /\
    dict_getitem info "treatment" = Return treatment /\
    r = [ ("success", PyBool true);
          ("plant", PyStr plant_name);
          ("disease", PyStr disease_name);
          ("confidence", PyInt (85 + i mod 15));
          ("description", PyStr description);
          ("prevention", PyStr prevention);
          ("treatment", PyStr treatment);
          ("severity", PyStr (severity_of disease_name)) ].
Proof.
  unfold classify. intros H.
  apply bind_Return in H as (cls & Hcls & H).
  apply bind_Return in H as (plant & Hplant & H).
  apply bind_Return in H as (raw & Hraw & H).
  cbv zeta in H.
  apply bind_Return in H as (d & Hd & H).
  apply bind_Return in H as (p & Hp & H).
  apply bind_Return in H as (t & Ht & H).
  injection H as <-.
  exists cls, plant, raw, d, p, t. cbv zeta. repeat split; assumption.
Qed.

(** On each of the 38 indices [classify] returns. *)
Lemma classify_returns (i : Z) :
  0 <= i < 38 -> exists r, classify i = Return r.
Proof.
  intros Hi. each_index Hi ltac:(eexists; vm_compute; reflexivity).
Qed.

Section PredictionFacts.

Context {lib : Imaging}.
Variable hash : string -> Z.

Lemma model_prediction_Return (image_data : string) (r : pydict) :
  try_block hash image_data = Return r -> model_prediction hash image_data = r.
Proof. unfold model_prediction. intros ->. reflexivity. Qed.

Lemma model_prediction_Raise (image_data : string) (e : py_exception) :
  try_block hash image_data = Raise e ->
  model_prediction hash image_data = failure e.
Proof. unfold model_prediction. intros ->. reflexivity. Qed.

(** A result that says [success: True] is the value of the [try] body, and
    was computed by [classify] from an index below 38. *)
Lemma success_inv (image_data : string) :
  dict_find (model_prediction hash image_data) "success" = Some (PyBool true) ->
  exists text,
    mean_text image_data = Return text /\
    classify (hash text mod 38) = Return (model_prediction hash image_data).
Proof.
  unfold model_prediction.
  destruct (try_block hash image_data) as [r | e] eqn:Htry; simpl.
  - intros _. unfold try_block in Htry.
    apply bind_Return in Htry as (text & Htext & Hr). eauto.
  - discriminate.
Qed.

(** Once the mean has been printed, the rest of the body returns. *)
Lemma try_block_after_mean (image_data text : string) :
  mean_text image_data = Return text ->
  try_block hash image_data = classify (hash text mod 38).
Proof. unfold try_block. intros ->. reflexivity. Qed.

(** With the mean printed, the call returns a result with [success: True]. *)
Lemma success_after_mean (image_data text : string) :
  mean_text image_data = Return text ->
  dict_find (model_prediction hash image_data) "success" = Some (PyBool true).
Proof.
  intros Htext.
  destruct (classify_returns (hash text mod 38) (hash_index_range _)) as [r Hr].
  pose proof (try_block_after_mean _ _ Htext) as Htry. rewrite Hr in Htry.
  rewrite (model_prediction_Return _ _ Htry).
  destruct (classify_inv _ _ Hr) as (? & ? & ? & ? & ? & ? & _ & _ & _ & Hshape).
  cbv zeta in Hshape. destruct Hshape as (_ & _ & _ & ->). reflexivity.
Qed.

End PredictionFacts.

(** ** Class names, confidence and the index *)

(** C3.  For every [result_index] from 0 to 37, with [plant] the part of
    [class_names[result_index]] before the separator [__] and [disease] the
    part after it with underscores replaced by spaces, as the result carries
    them, [plant + "__" + disease] with its spaces turned back into
    underscores is [class_names[result_index]] again. *)
Theorem class_name_reconstructed (result_index : Z) :
  0 <= result_index < 38 ->
  exists predicted_class r plant disease,
    list_getitem class_names result_index = Return predicted_class /\
    classify result_index = Return r /\
    dict_find r "plant" = Some (PyStr plant) /\
    dict_find r "disease" = Some (PyStr disease) /\
    list_getitem (Str.split predicted_class "__") 0 = Return plant /\
    (exists disease_raw,
        list_getitem (Str.split predicted_class "__") 1 = Return disease_raw /\
        disease = Str.replace disease_raw "_" " ") /\
    plant ++ "__" ++ Str.replace disease " " "_" = predicted_class.
Proof.
  intros Hi.
  each_index Hi ltac:(solve [repeat (first [reflexivity | split | eexists])]).
Qed.

Lemma class_name_reconstructed_witness :
  exists predicted_class r plant disease,
    list_getitem class_names 9 = Return predicted_class /\
    classify 9 = Return r /\
    dict_find r "plant" = Some (PyStr plant) /\
    dict_find r "disease" = Some (PyStr disease) /\
    list_getitem (Str.split predicted_class "__") 0 = Return plant /\
    (exists disease_raw,
        list_getitem (Str.split predicted_class "__") 1 = Return disease_raw /\
        disease = Str.replace disease_raw "_" " ") /\
    plant ++ "__" ++ Str.replace disease " " "_" = predicted_class.
Proof. apply (class_name_reconstructed 9). lia. Defined.

(** C4.  For each of the 38 values of [result_index], the confidence in the
    result is [85 + result_index % 15], and it lies between 85 and 99. *)
Theorem confidence_value (result_index : Z) :
  0 <= result_index < 38 ->
  exists r,
    classify result_index = Return r /\
    dict_find r "confidence" = Some (PyInt (85 + result_index mod 15)) /\
    85 <= 85 + result_index mod 15 <= 99.
Proof.
  intros Hi.
  destruct (classify_returns result_index Hi) as [r Hr].
  exists r. split; [assumption | ].
  destruct (classify_inv _ _ Hr) as (? & ? & ? & ? & ? & ? & _ & _ & _ & Hshape).
  cbv zeta in Hshape. destruct Hshape as (_ & _ & _ & ->).
  split; [reflexivity | ].
  pose proof (Z.mod_pos_bound result_index 15). lia.
Qed.

Lemma confidence_value_witness :
  exists r,
    classify 37 = Return r /\
    dict_find r "confidence" = Some (PyInt (85 + 37 mod 15)) /\
    85 <= 85 + 37 mod 15 <= 99.
Proof. apply (confidence_value 37). lia. Defined.

(** C7.  Whenever the body of [model_prediction] gets as far as choosing a
    class, [result_index] is at least 0 and below 38, the lookups in
    [class_names] and in the pieces of the class name do not raise, and the
    call returns a result with [success: True]. *)
Theorem result_index_in_range {lib : Imaging} (hash : string -> Z)
        (image_data text : string) :
  mean_text image_data = Return text ->
  let result_index := hash text mod 38 in
  0 <= result_index < 38 /\
  (exists predicted_class plant_name disease_raw,
      list_getitem class_names result_index = Return predicted_class /\
      list_getitem (Str.split predicted_class "__") 0 = Return plant_name /\
      list_getitem (Str.split predicted_class "__") 1 = Return disease_raw) /\
  try_block hash image_data = Return (model_prediction hash image_data) /\
  dict_find (model_prediction hash image_data) "success" = Some (PyBool true).
Proof.
  intros Htext result_index.
  assert (Hi : 0 <= result_index < 38) by apply hash_index_range.
  split; [exact Hi | ].
  destruct (classify_returns result_index Hi) as [r Hr].
  pose proof (try_block_after_mean hash _ _ Htext) as Htry.
  fold result_index in Htry. rewrite Hr in Htry.
  rewrite (model_prediction_Return hash _ _ Htry).
  destruct (classify_inv _ _ Hr)
    as (cls & plant & raw & ? & ? & ? & Hcls & Hplant & Hraw & Hshape).
  cbv zeta in Hshape. destruct Hshape as (_ & _ & _ & ->).
  split; [exists cls, plant, raw; auto | ].
  split; [exact Htry | reflexivity].
Qed.

Lemma result_index_in_range_witness :
  let result_index := hash_seed3 "0.3333333333333333" mod 38 in
  0 <= result_index < 38 /\
  (exists predicted_class plant_name disease_raw,
      list_getitem class_names result_index = Return predicted_class /\
      list_getitem (Str.split predicted_class "__") 0 = Return plant_name /\
      list_getitem (Str.split predicted_class "__") 1 = Return disease_raw) /\
  @try_block Fixture.imaging hash_seed3 Fixture.red_png
    = Return (@model_prediction Fixture.imaging hash_seed3 Fixture.red_png) /\
  dict_find (@model_prediction Fixture.imaging hash_seed3 Fixture.red_png) "success"
    = Some (PyBool true).
Proof.
  apply (@result_index_in_range Fixture.imaging hash_seed3 Fixture.red_png
           "0.3333333333333333").
  vm_compute. reflexivity.
Defined.

(** ** Severity and advisory text *)

(** C5.  In every successful prediction the severity is ["High"] exactly
    when the lower-cased disease name contains ["blight"], and ["Medium"]
    otherwise. *)
Theorem severity_high_iff_blight {lib : Imaging} (hash : string -> Z)
        (image_data : string) :
  dict_find (model_prediction hash image_data) "success" = Some (PyBool true) ->
  exists disease severity,
    dict_find (model_prediction hash image_data) "disease" = Some (PyStr disease) /\
    dict_find (model_prediction hash image_data) "severity" = Some (PyStr severity) /\
    (severity = "High" <-> Str.contains "blight" (Str.lower disease) = true) /\
    (Str.contains "blight" (Str.lower disease) = false -> severity = "Medium").
Proof.
  intros Hok.
  destruct (success_inv hash _ Hok) as (text & _ & Hr).
  destruct (classify_inv _ _ Hr) as (? & ? & raw & ? & ? & ? & _ & _ & _ & Hshape).
  cbv zeta in Hshape. destruct Hshape as (_ & _ & _ & ->).
  exists (Str.replace raw "_" " "), (severity_of (Str.replace raw "_" " ")).
  split; [reflexivity | ]. split; [reflexivity | ].
  unfold severity_of.
  destruct (Str.contains "blight" (Str.lower (Str.replace raw "_" " "))).
  - split; [tauto | discriminate].
  - split; [split; discriminate | reflexivity].
Qed.

Lemma severity_high_iff_blight_witness :
  exists disease severity,
    dict_find (@model_prediction Fixture.imaging hash_seed0 Fixture.red_png) "disease"
      = Some (PyStr disease) /\
    dict_find (@model_prediction Fixture.imaging hash_seed0 Fixture.red_png) "severity"
      = Some (PyStr severity) /\
    (severity = "High" <-> Str.contains "blight" (Str.lower disease) = true) /\
    (Str.contains "blight" (Str.lower disease) = false -> severity = "Medium").
Proof.
  apply (@severity_high_iff_blight Fixture.imaging hash_seed0 Fixture.red_png).
  vm_compute. reflexivity.
Defined.

(** Both outcomes occur among the classes; the capital of [Leaf_Blight]
    is why the name is lower-cased first. *)
Example severity_examples :
  (exists r, classify 9 = Return r /\
             dict_find r "disease" = Some (PyStr "Northern Leaf Blight") /\
             dict_find r "severity" = Some (PyStr "High")) /\
  (exists r, classify 21 = Return r /\
             dict_find r "disease" = Some (PyStr "Late blight") /\
             dict_find r "severity" = Some (PyStr "High")) /\
  (exists r, classify 1 = Return r /\
             dict_find r "disease" = Some (PyStr "Black rot") /\
             dict_find r "severity" = Some (PyStr "Medium")).
Proof. repeat split; eexists; repeat split; reflexivity. Qed.

Lemma disease_info_lookup (disease : string) :
  (In disease known_diseases /\
   exists d p t, dict_find disease_info disease
                 = Some [("description", d); ("prevention", p); ("treatment", t)])
  \/ (~ In disease known_diseases /\ dict_find disease_info disease = None).
Proof.
  unfold disease_info, known_diseases, dict_find.
  repeat match goal with
         | |- context [String.eqb ?k disease] =>
             destruct (String.eqb_spec k disease) as [<- | ?];
             [left; split; [simpl; tauto | do 3 eexists; reflexivity] | ]
         end.
  right. split; [simpl; intuition congruence | reflexivity].
Qed.

(** C6.  In a successful prediction whose disease name is one of the five
    keys of [disease_info] (compared exactly), the description, prevention
    and treatment are those stored under that key; for any other disease
    name they are the default record, whose description is the disease
    name, [" affecting "] and the plant name. *)
Theorem advisory_text {lib : Imaging} (hash : string -> Z) (image_data : string) :
  dict_find (model_prediction hash image_data) "success" = Some (PyBool true) ->
  exists plant disease description prevention treatment,
    map fst disease_info = known_diseases /\
    dict_find (model_prediction hash image_data) "plant" = Some (PyStr plant) /\
    dict_find (model_prediction hash image_data) "disease" = Some (PyStr disease) /\
    dict_find (model_prediction hash image_data) "description" = Some (PyStr description) /\
    dict_find (model_prediction hash image_data) "prevention" = Some (PyStr prevention) /\
    dict_find (model_prediction hash image_data) "treatment" = Some (PyStr treatment) /\
    (In disease known_diseases ->
       dict_find disease_info disease
       = Some [("description", description); ("prevention", prevention);
               ("treatment", treatment)]) /\
    (~ In disease known_diseases ->
       description = disease ++ " affecting " ++ plant /\
       prevention = generic_prevention /\
       treatment = generic_treatment).
Proof.
  intros Hok.
  destruct (success_inv hash _ Hok) as (text & _ & Hr).
  destruct (classify_inv _ _ Hr)
    as (cls & plant & raw & d & p & t & _ & _ & _ & Hshape).
  cbv zeta in Hshape. destruct Hshape as (Hd & Hp & Ht & ->).
  exists plant, (Str.replace raw "_" " "), d, p, t.
  do 6 (split; [reflexivity | ]).
  unfold dict_get in Hd, Hp, Ht.
  destruct (disease_info_lookup (Str.replace raw "_" " "))
    as [(Hin & d' & p' & t' & Hfind) | (Hout & Hfind)];
    rewrite Hfind in Hd, Hp, Ht; rewrite Hfind;
    injection Hd as <-; injection Hp as <-; injection Ht as <-.
  - split; [reflexivity | contradiction].
  - split; [contradiction | intros _; repeat split].
Qed.

Lemma advisory_text_witness :
  exists plant disease description prevention treatment,
    map fst disease_info = known_diseases /\
    dict_find (@model_prediction Fixture.imaging hash_seed3 Fixture.red_png) "plant"
      = Some (PyStr plant) /\
    dict_find (@model_prediction Fixture.imaging hash_seed3 Fixture.red_png) "disease"
      = Some (PyStr disease) /\
    dict_find (@model_prediction Fixture.imaging hash_seed3 Fixture.red_png) "description"
      = Some (PyStr description) /\
    dict_find (@model_prediction Fixture.imaging hash_seed3 Fixture.red_png) "prevention"
      = Some (PyStr prevention) /\
    dict_find (@model_prediction Fixture.imaging hash_seed3 Fixture.red_png) "treatment"
      = Some (PyStr treatment) /\
    (In disease known_diseases ->
       dict_find disease_info disease
       = Some [("description", description); ("prevention", prevention);
               ("treatment", treatment)]) /\
    (~ In disease known_diseases ->
       description = disease ++ " affecting " ++ plant /\
       prevention = generic_prevention /\
       treatment = generic_treatment).
Proof.
  apply (@advisory_text Fixture.imaging hash_seed3 Fixture.red_png).
  vm_compute. reflexivity.
Defined.

(** The two kinds of record among the classes. *)
Example advisory_examples :
  classify 25 =
    Return [ ("success", PyBool true); ("plant", PyStr "Squash");
             ("disease", PyStr "Powdery mildew"); ("confidence", PyInt 95);
             ("description", PyStr "Fungal disease causing white powdery coating on leaves");
             ("prevention", PyStr "Ensure good air circulation, avoid overhead watering, plant in sunny locations");
             ("treatment", PyStr "Apply sulfur-based fungicides or neem oil");
             ("severity", PyStr "Medium") ] /\
  classify 13 =
    Return [ ("success", PyBool true); ("plant", PyStr "Grape");
             ("disease", PyStr "Leaf blight"); ("confidence", PyInt 98);
             ("description", PyStr "Leaf blight affecting Grape");
             ("prevention", PyStr generic_prevention);
             ("treatment", PyStr generic_treatment);
             ("severity", PyStr "High") ].
Proof. split; reflexivity. Qed.

(** ** The handler *)

Section Handler.

Context {lib : Imaging}.
Variable hash : string -> Z.

Lemma raised_in_step_try_block (image_data : string) (e : py_exception) :
  raised_in_step hash image_data e -> try_block hash image_data = Raise e.
Proof.
  intros [H1 | b H1 H2 | b i H1 H2 H3 | b i r H1 H2 H3 H4
         | b i r c H1 H2 H3 H4 H5 | b i r c a H1 H2 H3 H4 H5 H6
         | b i r c a s H1 H2 H3 H4 H5 H6 H7 | text H1 H2];
    unfold try_block; [unfold mean_text .. | ];
    repeat match goal with
           | H : ?m = _ |- context [bind ?m _] => rewrite H; simpl
           end;
    solve [reflexivity | assumption].
Qed.

Lemma try_block_Raise_inv (image_data : string) (e : py_exception) :
  try_block hash image_data = Raise e -> raised_in_step hash image_data e.
Proof.
  unfold try_block. intros H.
  destruct (mean_text image_data) as [text | e'] eqn:Hmean; simpl in H.
  - eapply Raised_in_lookups; eassumption.
  - injection H as ->. unfold mean_text in Hmean.
    destruct (Base64.b64decode image_data) as [b | ?] eqn:H1; simpl in Hmean;
      [ | injection Hmean as ->; apply Raised_in_b64decode; assumption].
    destruct (Image_open b) as [i | ?] eqn:H2; simpl in Hmean;
      [ | injection Hmean as ->; eapply Raised_in_open; eassumption].
    destruct (Image_resize i (128, 128)) as [r | ?] eqn:H3; simpl in Hmean;
      [ | injection Hmean as ->; eapply Raised_in_resize; eassumption].
    destruct (Image_convert r "RGB") as [c | ?] eqn:H4; simpl in Hmean;
      [ | injection Hmean as ->; eapply Raised_in_convert; eassumption].
    destruct (np_array c) as [a | ?] eqn:H5; simpl in Hmean;
      [ | injection Hmean as ->; eapply Raised_in_array; eassumption].
    destruct (np_batch_scale a) as [s | ?] eqn:H6; simpl in Hmean;
      [ | injection Hmean as ->; eapply Raised_in_scale; eassumption].
    destruct (ndarray_mean s) as [m | ?] eqn:H7; simpl in Hmean;
      [ discriminate | injection Hmean as ->; eapply Raised_in_mean; eassumption].
Qed.

End Handler.

(** C2.  Every exception raised by a step of the prediction (decoding the
    base64 text, opening, resizing and converting the image, building and
    scaling the array, taking the mean, the lookups after the hash) is
    turned into the dictionary of [success: False] and
    ["Disease detection failed: "] followed by the exception's text.  A call
    returns either that dictionary for an exception that was raised, or,
    when no step raised, the complete result with its eight keys. *)
Theorem exceptions_become_failure_record {lib : Imaging} (hash : string -> Z)
        (image_data : string) :
  (forall e, raised_in_step hash image_data e ->
     model_prediction hash image_data
     = [ ("success", PyBool false);
         ("error", PyStr ("Disease detection failed: " ++ exc_str e)) ])
  /\
  ((map fst (model_prediction hash image_data) = result_keys /\
    dict_find (model_prediction hash image_data) "success" = Some (PyBool true) /\
    forall e, ~ raised_in_step hash image_data e)
   \/
   (exists e, raised_in_step hash image_data e /\
      model_prediction hash image_data
      = [ ("success", PyBool false);
          ("error", PyStr ("Disease detection failed: " ++ exc_str e)) ])).
Proof.
  split.
  - intros e He. apply raised_in_step_try_block in He.
    rewrite (model_prediction_Raise hash _ _ He). reflexivity.
  - destruct (try_block hash image_data) as [r | e] eqn:Htry.
    + left. rewrite (model_prediction_Return hash _ _ Htry).
      assert (Hraise : forall e, ~ raised_in_step hash image_data e).
      { intros e He. apply raised_in_step_try_block in He. congruence. }
      unfold try_block in Htry.
      apply bind_Return in Htry as (text & _ & Hr).
      destruct (classify_inv _ _ Hr) as (? & ? & ? & ? & ? & ? & _ & _ & _ & Hshape).
      cbv zeta in Hshape. destruct Hshape as (_ & _ & _ & ->).
      repeat split; [assumption].
    + right. exists e. split.
      * apply try_block_Raise_inv. assumption.
      * rewrite (model_prediction_Raise hash _ _ Htry). reflexivity.
Qed.

Lemma exceptions_become_failure_record_witness :
  @model_prediction Fixture.imaging hash_seed0 "AAA"
  = [ ("success", PyBool false);
      ("error", PyStr ("Disease detection failed: " ++ "Incorrect padding")) ].
Proof.
  apply (proj1 (@exceptions_become_failure_record Fixture.imaging hash_seed0 "AAA")
           (PyExc BinasciiError "Incorrect padding")).
  apply Raised_in_b64decode. reflexivity.
Defined.

(** The exceptions of two steps, on the stand-in library. *)
Example failure_examples :
  @model_prediction Fixture.imaging hash_seed0 "AAA"
    = [ ("success", PyBool false);
        ("error", PyStr "Disease detection failed: Incorrect padding") ] /\
  @model_prediction Fixture.imaging hash_seed0 "AAAA"
    = [ ("success", PyBool false);
        ("error", PyStr "Disease detection failed: cannot identify image file") ].
Proof. split; vm_compute; reflexivity. Qed.

(** ** Decoding the base64 text *)

Lemma codes_app (s1 s2 : string) :
  Base64.codes (s1 ++ s2) = (Base64.codes s1 ++ Base64.codes s2)%list.
Proof.
  unfold Base64.codes. induction s1 as [ | a s1 IH]; simpl.
  - reflexivity.
  - f_equal. exact IH.
Qed.

(** The loop steps over a character that is neither in the alphabet nor the
    pad, wherever it stands and whatever the state. *)
Lemma a2b_loop_skips (l1 l2 : list Z) (x : Z) :
  Base64.table_a2b_base64 x = 64 -> x <> Base64.BASE64_PAD ->
  forall quad_pos leftchar pads bin_data,
    Base64.a2b_loop (l1 ++ x :: l2) quad_pos leftchar pads bin_data
    = Base64.a2b_loop (l1 ++ l2) quad_pos leftchar pads bin_data.
Proof.
  intros Htab Hpad. induction l1 as [ | y l1 IH]; intros q lc p out.
  - simpl. apply Z.eqb_neq in Hpad. rewrite Hpad, Htab. reflexivity.
  - simpl.
    repeat match goal with
           | |- context [if ?b then _ else _] => destruct b
           end;
      solve [reflexivity | apply IH].
Qed.

Lemma b64decode_skips (s1 s2 : string) (c : ascii) :
  is_discarded c = true ->
  Base64.b64decode (s1 ++ String c s2) = Base64.b64decode (s1 ++ s2).
Proof.
  unfold is_discarded, Base64.in_alphabet. intros Hc.
  apply andb_prop in Hc as [Hc Hpad]. apply andb_prop in Hc as [Hascii Halpha].
  apply negb_true_iff in Hpad, Halpha.
  apply Z.eqb_neq in Hpad. apply Z.ltb_ge in Halpha.
  assert (Htab : Base64.table_a2b_base64 (Str.code c) = 64).
  { revert Halpha. unfold Base64.table_a2b_base64.
    repeat match goal with
           | |- context [if ?b then _ else _] => destruct b eqn:?
           end; try reflexivity; intros; exfalso;
      repeat match goal with
             | H : (_ && _) = true |- _ => apply andb_prop in H as [? ?]
             | H : (_ <=? _) = true |- _ => apply Z.leb_le in H
             | H : (_ =? _) = true |- _ => apply Z.eqb_eq in H
             end; lia. }
  unfold Base64.b64decode, Base64.bytes_from_decode_data.
  rewrite !codes_app. change (Base64.codes (String c s2))
    with (Str.code c :: Base64.codes s2).
  rewrite !forallb_app. simpl. rewrite Hascii. simpl.
  destruct (forallb (fun c0 => c0 <? 128) (Base64.codes s1)
            && forallb (fun c0 => c0 <? 128) (Base64.codes s2)); simpl.
  - unfold Base64.a2b_base64. rewrite (a2b_loop_skips _ _ _ Htab Hpad). reflexivity.
  - reflexivity.
Qed.

(** Standard base64 text holds characters of the alphabet and pads only. *)
Lemma is_standard_codes_chars (n : nat) :
  forall l, (List.length l <= n)%nat -> Base64.is_standard_codes l = true ->
            Forall (fun c => Base64.in_alphabet c = true \/ c = Base64.BASE64_PAD) l.
Proof.
  induction n as [ | n IH]; intros l Hlen Hstd.
  - destruct l; [constructor | simpl in Hlen; lia].
  - destruct l as [ | a [ | b [ | c [ | d rest]]]]; try discriminate; [constructor | ].
    assert (Hrest : rest = [] \/ rest <> []) by (destruct rest; [left | right]; congruence).
    destruct Hrest as [-> | Hne].
    + simpl in Hstd.
      repeat match goal with
             | H : (_ && _) = true |- _ => apply andb_prop in H as [? ?]
             | H : (_ || _) = true |- _ => apply orb_prop in H as [? | ?]
             | H : (_ =? _) = true |- _ => apply Z.eqb_eq in H
             end;
        repeat (apply Forall_cons; [auto | ]); apply Forall_nil.
    + assert (Hstd' : Base64.in_alphabet a && Base64.in_alphabet b
                      && Base64.in_alphabet c && Base64.in_alphabet d
                      && Base64.is_standard_codes rest = true).
      { destruct rest; [congruence | exact Hstd]. }
      repeat match goal with
             | H : (_ && _) = true |- _ => apply andb_prop in H as [? ?]
             end.
      repeat (apply Forall_cons; [auto | ]).
      apply IH; [simpl in Hlen; lia | assumption].
Qed.

Lemma discarded_not_standard (s1 s2 : string) (c : ascii) :
  is_discarded c = true -> Base64.is_standard_base64 (s1 ++ String c s2) = false.
Proof.
  intros Hc. unfold Base64.is_standard_base64.
  destruct (Base64.is_standard_codes (Base64.codes (s1 ++ String c s2))) eqn:Hstd;
    [ | reflexivity].
  exfalso.
  apply (is_standard_codes_chars _ _ (le_n _)) in Hstd.
  rewrite codes_app in Hstd. apply Forall_app in Hstd as [_ Hstd].
  change (Base64.codes (String c s2)) with (Str.code c :: Base64.codes s2) in Hstd.
  inversion Hstd as [ | ? ? Hhead _]; subst.
  unfold is_discarded in Hc.
  apply andb_prop in Hc as [Hc Hpad]. apply andb_prop in Hc as [_ Halpha].
  apply negb_true_iff in Hpad, Halpha. apply Z.eqb_neq in Hpad.
  destruct Hhead; congruence.
Qed.

Section Decoding.

Context {lib : Imaging}.
Variable hash : string -> Z.

Lemma mean_text_skips (s1 s2 : string) (c : ascii) :
  is_discarded c = true -> mean_text (s1 ++ String c s2) = mean_text (s1 ++ s2).
Proof. intros Hc. unfold mean_text. rewrite (b64decode_skips _ _ _ Hc). reflexivity. Qed.

End Decoding.

(** C8, as amended.  For every input string on which the base64 decoding
    step fails, [model_prediction] returns the dictionary of
    [success: False] and ["Disease detection failed: "] followed by the text
    of the decoding error; the literal ["not-base64!!"] is such an input. *)
Theorem decode_failure_reported {lib : Imaging} (hash : string -> Z) :
  (forall image_data e,
      Base64.b64decode image_data = Raise e ->
      model_prediction hash image_data
      = [ ("success", PyBool false);
          ("error", PyStr ("Disease detection failed: " ++ exc_str e)) ])
  /\ Base64.is_standard_base64 "not-base64!!" = false
  /\ Base64.b64decode "not-base64!!"
     = Raise (PyExc BinasciiError
         "Invalid base64-encoded string: number of data characters (9) cannot be 1 more than a multiple of 4")
  /\ model_prediction hash "not-base64!!"
     = [ ("success", PyBool false);
         ("error", PyStr "Disease detection failed: Invalid base64-encoded string: number of data characters (9) cannot be 1 more than a multiple of 4") ].
Proof.
  assert (Hgen : forall image_data e,
             Base64.b64decode image_data = Raise e ->
             model_prediction hash image_data = failure e).
  { intros image_data e He. apply model_prediction_Raise.
    apply raised_in_step_try_block. apply Raised_in_b64decode. exact He. }
  split; [exact Hgen | ].
  split; [reflexivity | ]. split; [reflexivity | ].
  rewrite (Hgen "not-base64!!" _ eq_refl). reflexivity.
Qed.

Lemma decode_failure_reported_witness :
  @model_prediction Fixture.imaging hash_seed0 "AA=A"
  = [ ("success", PyBool false);
      ("error", PyStr ("Disease detection failed: " ++ "Incorrect padding")) ].
Proof.
  apply (proj1 (@decode_failure_reported Fixture.imaging hash_seed0)
           "AA=A" (PyExc BinasciiError "Incorrect padding")).
  reflexivity.
Defined.

(** C8 as stated fails: ["AAAA!"] is not standard base64, and the decoding
    step returns three bytes for it. *)
Lemma invalid_base64_is_decoded :
  Base64.is_standard_base64 "AAAA!" = false /\
  Base64.b64decode "AAAA!" = Return [Byte.x00; Byte.x00; Byte.x00] /\
  ~ (forall image_data,
        Base64.is_standard_base64 image_data = false ->
        exists e, Base64.b64decode image_data = Raise e).
Proof.
  split; [reflexivity | ]. split; [reflexivity | ].
  intros H. destruct (H "AAAA!" eq_refl) as [e He]. discriminate He.
Qed.

(** C10.  There are strings that are not standard base64 and that the
    decoding step accepts: a character outside the alphabet (the pad apart)
    is stepped over wherever it stands, so the string decodes to the bytes
    of the string without it; when what is left decodes to an image the
    libraries accept, the call returns a result with [success: True]. *)
Theorem non_alphabet_characters_discarded :
  (exists image_data image_bytes,
      Base64.is_standard_base64 image_data = false /\
      Base64.b64decode image_data = Return image_bytes)
  /\
  (forall (s1 s2 : string) (c : ascii),
      is_discarded c = true ->
      Base64.is_standard_base64 (s1 ++ String c s2) = false /\
      Base64.b64decode (s1 ++ String c s2) = Base64.b64decode (s1 ++ s2))
  /\
  (forall (lib : Imaging) (hash : string -> Z) (s1 s2 text : string) (c : ascii),
      is_discarded c = true ->
      mean_text (s1 ++ s2) = Return text ->
      dict_find (model_prediction hash (s1 ++ String c s2)) "success"
      = Some (PyBool true)).
Proof.
  split; [ | split].
  - exists "AAAA!", [Byte.x00; Byte.x00; Byte.x00]. split; reflexivity.
  - intros s1 s2 c Hc. split; [apply discarded_not_standard; exact Hc | ].
    apply b64decode_skips. exact Hc.
  - intros lib hash s1 s2 text c Hc Htext.
    rewrite <- (mean_text_skips s1 s2 c Hc) in Htext.
    apply (success_after_mean hash _ _ Htext).
Qed.

Lemma non_alphabet_characters_discarded_witness :
  (Base64.is_standard_base64 (Fixture.red_png ++ "!") = false /\
   Base64.b64decode (Fixture.red_png ++ "!") = Base64.b64decode (Fixture.red_png ++ EmptyString))
  /\
  dict_find (@model_prediction Fixture.imaging hash_seed0 (Fixture.red_png ++ "!")) "success"
  = Some (PyBool true).
Proof.
  split.
  - apply (proj1 (proj2 non_alphabet_characters_discarded)
             Fixture.red_png EmptyString "!"%char).
    reflexivity.
  - apply (proj2 (proj2 non_alphabet_characters_discarded)
             Fixture.imaging hash_seed0 Fixture.red_png EmptyString
             "0.3333333333333333" "!"%char).
    + reflexivity.
    + vm_compute. reflexivity.
Defined.

(** The text of the red image with a line feed in the middle and an
    exclamation mark at the end, on the stand-in library. *)
Example discarded_example :
  let image_data :=
    "iVBORw0KGgoAAAANSUhEUgAAAAoAAAAKCAIAAAACUFjqAAAAEklEQVR42mP4z8CA" ++
    String (ascii_of_nat 10)
      "BzGMSmNDALfKY53W1e90AAAAAElFTkSuQmCC!" in
  Base64.is_standard_base64 image_data = false /\
  Base64.b64decode image_data = Base64.b64decode Fixture.red_png /\
  dict_find (@model_prediction Fixture.imaging hash_seed0 image_data) "success"
  = Some (PyBool true).
Proof. vm_compute. repeat split; reflexivity. Qed.

(** ** The entry point *)

(** C9.  Started without an image argument, the script prints exactly the
    JSON text of [success: false] and [error: "No image data provided"],
    ends with status 0, and does not call [model_prediction]. *)
Theorem no_image_data_message {lib : Imaging} (hash : string -> Z)
        (argv : list string) :
  (List.length argv <= 1)%nat ->
  let q := String (ascii_of_nat 34) EmptyString in
  let text :=
    "{" ++ q ++ "success" ++ q ++ ": false, "
        ++ q ++ "error" ++ q ++ ": " ++ q ++ "No image data provided" ++ q ++ "}" in
  main hash argv = ProcessRun [Printed text] 0 /\
  stdout (events (main hash argv)) = text ++ String (ascii_of_nat 10) EmptyString /\
  exit_status (main hash argv) = 0 /\
  forall image_data, ~ In (Called_model_prediction image_data) (events (main hash argv)).
Proof.
  intros Hlen q text. unfold main.
  assert (Hno : (1 <? Z.of_nat (List.length argv)) = false) by (apply Z.ltb_ge; lia).
  rewrite Hno.
  split; [reflexivity | ]. split; [reflexivity | ]. split; [reflexivity | ].
  intros image_data [Hin | []]. discriminate Hin.
Qed.

Lemma no_image_data_message_witness :
  let q := String (ascii_of_nat 34) EmptyString in
  let text :=
    "{" ++ q ++ "success" ++ q ++ ": false, "
        ++ q ++ "error" ++ q ++ ": " ++ q ++ "No image data provided" ++ q ++ "}" in
  @main Fixture.imaging hash_seed0 ["disease_detection.py"] = ProcessRun [Printed text] 0 /\
  stdout (events (@main Fixture.imaging hash_seed0 ["disease_detection.py"]))
  = text ++ String (ascii_of_nat 10) EmptyString /\
  exit_status (@main Fixture.imaging hash_seed0 ["disease_detection.py"]) = 0 /\
  forall image_data,
    ~ In (Called_model_prediction image_data)
         (events (@main Fixture.imaging hash_seed0 ["disease_detection.py"])).
Proof.
  apply (@no_image_data_message Fixture.imaging hash_seed0 ["disease_detection.py"]).
  simpl. lia.
Defined.

(** With an argument the function is called and its result printed. *)
Example main_with_argument :
  let q := String (ascii_of_nat 34) EmptyString in
  @main Fixture.imaging hash_seed0 ["disease_detection.py"; "AAA"]
  = ProcessRun
      [ Called_model_prediction "AAA";
        Printed ("{" ++ q ++ "success" ++ q ++ ": false, " ++ q ++ "error" ++ q ++ ": "
                     ++ q ++ "Disease detection failed: Incorrect padding" ++ q ++ "}") ] 0.
Proof. vm_compute. reflexivity. Qed.

(** ** The hash and repeated runs *)

Section SameProcess.

Context {lib : Imaging}.
Variable hash : string -> Z.

(** Inside one interpreter the result is a function of the printed mean. *)
Lemma same_mean_same_result (s1 s2 : string) :
  mean_text s1 = mean_text s2 ->
  model_prediction hash s1 = model_prediction hash s2.
Proof. unfold model_prediction, try_block. intros ->. reflexivity. Qed.

End SameProcess.

(** Two interpreters agree whenever their hashes of the printed mean are
    congruent modulo 38. *)
Lemma same_index_same_result {lib : Imaging} (hash1 hash2 : string -> Z)
      (image_data text : string) :
  mean_text image_data = Return text ->
  hash1 text mod 38 = hash2 text mod 38 ->
  model_prediction hash1 image_data = model_prediction hash2 image_data.
Proof.
  intros Htext Hidx. unfold model_prediction.
  rewrite !(try_block_after_mean _ _ _ Htext), Hidx. reflexivity.
Qed.

(** C1.  The class index comes from the built-in [hash] of a [str], which is
    keyed by the secret of the interpreter process.  For an image whose
    printed mean is [0.3333333333333333] (pure red), a run of the script
    under [PYTHONHASHSEED=0] returns healthy strawberry with confidence 97,
    and a run on the same input under [PYTHONHASHSEED=3] returns tomato
    target spot with confidence 89: two runs on identical input, different
    results. *)
Theorem prediction_depends_on_hash_secret {lib : Imaging} (image_data : string) :
  mean_text image_data = Return "0.3333333333333333" ->
  model_prediction hash_seed0 image_data
  = [ ("success", PyBool true); ("plant", PyStr "Strawberry");
      ("disease", PyStr "healthy"); ("confidence", PyInt 97);
      ("description", PyStr "healthy affecting Strawberry");
      ("prevention", PyStr generic_prevention);
      ("treatment", PyStr generic_treatment);
      ("severity", PyStr "Medium") ] /\
  model_prediction hash_seed3 image_data
  = [ ("success", PyBool true); ("plant", PyStr "Tomato");
      ("disease", PyStr "Target Spot"); ("confidence", PyInt 89);
      ("description", PyStr "Target Spot affecting Tomato");
      ("prevention", PyStr generic_prevention);
      ("treatment", PyStr generic_treatment);
      ("severity", PyStr "Medium") ] /\
  model_prediction hash_seed0 image_data <> model_prediction hash_seed3 image_data.
Proof.
  intros Htext.
  assert (H0 : hash_seed0 "0.3333333333333333" mod 38 = 27) by (vm_compute; reflexivity).
  assert (H3 : hash_seed3 "0.3333333333333333" mod 38 = 34) by (vm_compute; reflexivity).
  assert (R0 : model_prediction hash_seed0 image_data = _)
    by (apply model_prediction_Return; rewrite (try_block_after_mean _ _ _ Htext), H0;
        reflexivity).
  assert (R3 : model_prediction hash_seed3 image_data = _)
    by (apply model_prediction_Return; rewrite (try_block_after_mean _ _ _ Htext), H3;
        reflexivity).
  rewrite R0, R3. repeat split. discriminate.
Qed.

Lemma prediction_depends_on_hash_secret_witness :
  @model_prediction Fixture.imaging hash_seed0 Fixture.red_png
  <> @model_prediction Fixture.imaging hash_seed3 Fixture.red_png.
Proof.
  apply (@prediction_depends_on_hash_secret Fixture.imaging Fixture.red_png).
  vm_compute. reflexivity.
Defined.

(** * Further properties of the decoding step (line 11) *)

Lemma in_alphabet_range (c : Z) :
  Base64.in_alphabet c = true -> 43 <= c <= 122 /\ c <> Base64.BASE64_PAD.
Proof.
  unfold Base64.in_alphabet, Base64.table_a2b_base64, Base64.BASE64_PAD.
  repeat match goal with
         | |- context [if ?b then _ else _] => destruct b eqn:?
         end; intros Hlt;
    repeat match goal with
           | H : (_ && _) = true |- _ => apply andb_prop in H as [? ?]
           | H : (_ <=? _) = true |- _ => apply Z.leb_le in H
           | H : (_ =? _) = true |- _ => apply Z.eqb_eq in H
           | H : (_ <? _) = true |- _ => apply Z.ltb_lt in H
           end; lia.
Qed.

(** One turn of the loop on a character of the alphabet, by position in the
    group of four. *)
Lemma a2b_loop_data (x : Z) (rest : list Z) (quad_pos leftchar pads : Z)
      (bin_data : list Byte.byte) :
  Base64.in_alphabet x = true ->
  Base64.a2b_loop (x :: rest) quad_pos leftchar pads bin_data
  = if quad_pos =? 0 then
      Base64.a2b_loop rest 1 (Base64.table_a2b_base64 x) 0 bin_data
    else if quad_pos =? 1 then
      Base64.a2b_loop rest 2 (Z.land (Base64.table_a2b_base64 x) 15) 0
        (bin_data ++ [Base64.to_byte (Z.lor (Z.shiftl leftchar 2)
                                            (Z.shiftr (Base64.table_a2b_base64 x) 4))])
    else if quad_pos =? 2 then
      Base64.a2b_loop rest 3 (Z.land (Base64.table_a2b_base64 x) 3) 0
        (bin_data ++ [Base64.to_byte (Z.lor (Z.shiftl leftchar 4)
                                            (Z.shiftr (Base64.table_a2b_base64 x) 2))])
    else
      Base64.a2b_loop rest 0 0 0
        (bin_data ++ [Base64.to_byte (Z.lor (Z.shiftl leftchar 6)
                                            (Base64.table_a2b_base64 x))]).
Proof.
  intros Hx. destruct (in_alphabet_range x Hx) as [_ Hpad].
  unfold Base64.in_alphabet in Hx. apply Z.ltb_lt in Hx.
  cbn [Base64.a2b_loop].
  apply Z.eqb_neq in Hpad. rewrite Hpad.
  assert (Hge : (64 <=? Base64.table_a2b_base64 x) = false) by (apply Z.leb_gt; lia).
  rewrite Hge. reflexivity.
Qed.

(** One turn of the loop on a character that is neither data nor pad. *)
Lemma a2b_loop_other (x : Z) (rest : list Z) (quad_pos leftchar pads : Z)
      (bin_data : list Byte.byte) :
  Base64.in_alphabet x = false -> x <> Base64.BASE64_PAD ->
  Base64.a2b_loop (x :: rest) quad_pos leftchar pads bin_data
  = Base64.a2b_loop rest quad_pos leftchar pads bin_data.
Proof.
  intros Hx Hpad. unfold Base64.in_alphabet in Hx. apply Z.ltb_ge in Hx.
  cbn [Base64.a2b_loop].
  apply Z.eqb_neq in Hpad. rewrite Hpad.
  assert (Hge : (64 <=? Base64.table_a2b_base64 x) = true) by (apply Z.leb_le; lia).
  rewrite Hge. reflexivity.
Qed.

(** Without pads the loop sees the data characters only. *)
Lemma a2b_loop_filter (l : list Z) :
  Forall (fun c => c <> Base64.BASE64_PAD) l ->
  forall quad_pos leftchar pads bin_data,
    Base64.a2b_loop l quad_pos leftchar pads bin_data
    = Base64.a2b_loop (filter Base64.in_alphabet l) quad_pos leftchar pads bin_data.
Proof.
  induction 1 as [ | x l Hx _ IH]; intros q lc p out; [reflexivity | ].
  cbn [filter]. destruct (Base64.in_alphabet x) eqn:Hin.
  - rewrite !a2b_loop_data by exact Hin. cbv zeta.
    repeat match goal with
           | |- context [if ?b then _ else _] => destruct b
           end; apply IH.
  - rewrite a2b_loop_other by assumption. apply IH.
Qed.

(** On data characters alone the loop runs to the end.  With [4 * g + r]
    characters consumed, [r] below 4, the position in the group is [r] and
    [3 * g + max 0 (r - 1)] bytes have been written. *)
Lemma a2b_loop_alphabet (l : list Z) :
  Forall (fun c => Base64.in_alphabet c = true) l ->
  forall g r leftchar pads bin_data,
    0 <= r < 4 ->
    Z.of_nat (List.length bin_data) = 3 * g + Z.max 0 (r - 1) ->
    exists g' r' bin_data',
      0 <= r' < 4 /\
      4 * g' + r' = 4 * g + r + Z.of_nat (List.length l) /\
      Base64.a2b_loop l r leftchar pads bin_data = Base64.Loop_end r' bin_data' /\
      Z.of_nat (List.length bin_data') = 3 * g' + Z.max 0 (r' - 1).
Proof.
  induction 1 as [ | x l Hx _ IH]; intros g r lc p out Hr Hout.
  - exists g, r, out. simpl. repeat split; try lia. exact Hout.
  - rewrite a2b_loop_data by exact Hx. cbv zeta.
    assert (Hcases : r = 0 \/ r = 1 \/ r = 2 \/ r = 3) by lia.
    destruct Hcases as [-> | [-> | [-> | ->]]]; cbn [Z.eqb].
    + destruct (IH g 1 (Base64.table_a2b_base64 x) 0 out) as (g' & r' & o & ? & ? & ? & ?);
        [lia | lia | ].
      exists g', r', o. cbn [List.length]. repeat split; try lia; assumption.
    + match goal with
      | |- context [Base64.a2b_loop l 2 ?lc' 0 ?o'] =>
          destruct (IH g 2 lc' 0 o') as (g' & r' & o & ? & ? & ? & ?);
            [lia | rewrite length_app; cbn [List.length]; lia | ]
      end.
      exists g', r', o. cbn [List.length]. repeat split; try lia; assumption.
    + match goal with
      | |- context [Base64.a2b_loop l 3 ?lc' 0 ?o'] =>
          destruct (IH g 3 lc' 0 o') as (g' & r' & o & ? & ? & ? & ?);
            [lia | rewrite length_app; cbn [List.length]; lia | ]
      end.
      exists g', r', o. cbn [List.length]. repeat split; try lia; assumption.
    + match goal with
      | |- context [Base64.a2b_loop l 0 0 0 ?o'] =>
          destruct (IH (g + 1) 0 0 0 o') as (g' & r' & o & ? & ? & ? & ?);
            [lia | rewrite length_app; cbn [List.length]; lia | ]
      end.
      exists g', r', o. cbn [List.length]. repeat split; try lia; assumption.
Qed.

Lemma filter_empty {A : Type} (f : A -> bool) (l : list A) :
  filter f l = [] -> Forall (fun x => f x = false) l.
Proof.
  induction l as [ | x l IH]; [constructor | ].
  cbn [filter]. destruct (f x) eqn:Hfx; [discriminate | ].
  intros H. constructor; [exact Hfx | exact (IH H)].
Qed.

Lemma filter_all {A : Type} (f : A -> bool) (l : list A) :
  Forall (fun x => f x = true) (filter f l).
Proof.
  apply Forall_forall. intros x Hx. apply filter_In in Hx. tauto.
Qed.

Lemma no_pad_characters (s : string) :
  pad_characters s = [] -> Forall (fun c => c <> Base64.BASE64_PAD) (Base64.codes s).
Proof.
  intros H. apply filter_empty in H.
  eapply Forall_impl; [ | exact H]. cbv beta. intros c Hc. apply Z.eqb_neq. exact Hc.
Qed.

(** X1.  Text without pad characters.  With [n] characters of the alphabet in an
    ASCII string (all other characters are stepped over), the decoding
    returns [3 * (n / 4)] bytes when [n] is a multiple of 4, raises the
    error that names [n] when [n] is 1 more than a multiple of 4, and
    raises ["Incorrect padding"] otherwise: unpadded base64 is rejected. *)
Theorem unpadded_decode (image_data : string) :
  is_ascii_text image_data = true ->
  pad_characters image_data = [] ->
  let n := List.length (data_characters image_data) in
  ((n mod 4 = 0)%nat ->
     exists image_bytes,
       Base64.b64decode image_data = Return image_bytes /\
       (List.length image_bytes = 3 * (n / 4))%nat) /\
  ((n mod 4 = 1)%nat ->
     Base64.b64decode image_data
     = Raise (PyExc BinasciiError
                ("Invalid base64-encoded string: number of data characters ("
                 ++ Str.of_nat n ++ ") cannot be 1 more than a multiple of 4"))) /\
  ((n mod 4 = 2 \/ n mod 4 = 3)%nat ->
     Base64.b64decode image_data = Raise (PyExc BinasciiError "Incorrect padding")).
Proof.
  intros Hascii Hpads n.
  unfold Base64.b64decode, Base64.bytes_from_decode_data.
  unfold is_ascii_text in Hascii. rewrite Hascii. cbn [bind].
  unfold Base64.a2b_base64.
  rewrite (a2b_loop_filter _ (no_pad_characters _ Hpads)).
  destruct (a2b_loop_alphabet _ (filter_all Base64.in_alphabet (Base64.codes image_data))
              0 0 0 0 [] ltac:(lia) eq_refl)
    as (g & r & out & Hr & Hn & -> & Hout).
  fold (data_characters image_data) in Hn. fold n in Hn.
  pose proof (Nat.div_mod_eq n 4) as Hdiv.
  pose proof (Nat.mod_upper_bound n 4 ltac:(lia)) as Hmod.
  assert (Hr' : r = Z.of_nat (n mod 4)) by lia.
  assert (Hg : g = Z.of_nat (n / 4)) by lia.
  split; [ | split].
  - intros H0. rewrite H0 in Hr'. cbn in Hr'. subst r. cbn [Z.eqb].
    exists out. split; [reflexivity | lia].
  - intros H1. rewrite H1 in Hr'. cbn in Hr'. subst r. cbn [Z.eqb].
    assert (Hlen : (List.length out / 3 * 4 + 1 = n)%nat).
    { assert (Hl : (List.length out = n / 4 * 3)%nat) by lia.
      rewrite Hl, Nat.div_mul by lia. lia. }
    rewrite Hlen. reflexivity.
  - intros [H2 | H3].
    + rewrite H2 in Hr'. cbn in Hr'. subst r. reflexivity.
    + rewrite H3 in Hr'. cbn in Hr'. subst r. reflexivity.
Qed.

Lemma unpadded_decode_witness :
  let n := List.length (data_characters "not-base64!!") in
  ((n mod 4 = 0)%nat ->
     exists image_bytes,
       Base64.b64decode "not-base64!!" = Return image_bytes /\
       (List.length image_bytes = 3 * (n / 4))%nat) /\
  ((n mod 4 = 1)%nat ->
     Base64.b64decode "not-base64!!"
     = Raise (PyExc BinasciiError
                ("Invalid base64-encoded string: number of data characters ("
                 ++ Str.of_nat n ++ ") cannot be 1 more than a multiple of 4"))) /\
  ((n mod 4 = 2 \/ n mod 4 = 3)%nat ->
     Base64.b64decode "not-base64!!" = Raise (PyExc BinasciiError "Incorrect padding")).
Proof. apply (unpadded_decode "not-base64!!"); reflexivity. Defined.

(** Unpadded text of a length that base64 encoders for URLs produce. *)
Example unpadded_examples :
  Base64.b64decode "aGVsbG8" = Raise (PyExc BinasciiError "Incorrect padding") /\
  Base64.b64decode "aGVsbG8=" = Return [Byte.x68; Byte.x65; Byte.x6c; Byte.x6c; Byte.x6f] /\
  Base64.b64decode "aGVs bG8h" = Return [Byte.x68; Byte.x65; Byte.x6c; Byte.x6c; Byte.x6f; Byte.x21].
Proof. repeat split; reflexivity. Qed.

(** The pad character, by position in the group and pads seen so far. *)
Lemma a2b_loop_pad_early (rest : list Z) (quad_pos leftchar pads : Z)
      (bin_data : list Byte.byte) :
  quad_pos < 2 ->
  Base64.a2b_loop (Base64.BASE64_PAD :: rest) quad_pos leftchar pads bin_data
  = Base64.a2b_loop rest quad_pos leftchar pads bin_data.
Proof.
  intros Hq. cbn [Base64.a2b_loop]. rewrite Z.eqb_refl.
  assert (H2 : (2 <=? quad_pos) = false) by (apply Z.leb_gt; exact Hq).
  rewrite H2. reflexivity.
Qed.

Lemma a2b_loop_pad_3 (rest : list Z) (leftchar : Z) (bin_data : list Byte.byte) :
  Base64.a2b_loop (Base64.BASE64_PAD :: rest) 3 leftchar 0 bin_data
  = Base64.Goto_done bin_data.
Proof. reflexivity. Qed.

Lemma a2b_loop_pad_2 (rest : list Z) (leftchar : Z) (bin_data : list Byte.byte) :
  Base64.a2b_loop (Base64.BASE64_PAD :: Base64.BASE64_PAD :: rest) 2 leftchar 0 bin_data
  = Base64.Goto_done bin_data.
Proof. reflexivity. Qed.

Lemma filter_pad_data (c : Z) :
  Base64.in_alphabet c = true -> (c =? Base64.BASE64_PAD) = false.
Proof. intros Hc. apply Z.eqb_neq. apply (in_alphabet_range c Hc). Qed.

(** On standard base64 text the loop, started at the head of a group, stops
    at the padding when there is some and at the end of the text otherwise;
    every four characters give three bytes, less one byte per pad. *)
Lemma a2b_loop_standard (n : nat) :
  forall l, (List.length l <= n)%nat -> Base64.is_standard_codes l = true ->
  forall leftchar pads bin_data,
  exists bin_data',
    (3 * List.length l + 4 * List.length bin_data
     = 4 * (List.length bin_data'
            + List.length (filter (fun c => (c =? Base64.BASE64_PAD)%Z) l)))%nat /\
    match filter (fun c => c =? Base64.BASE64_PAD) l with
    | [] => Base64.a2b_loop l 0 leftchar pads bin_data = Base64.Loop_end 0 bin_data'
    | _ :: _ => Base64.a2b_loop l 0 leftchar pads bin_data = Base64.Goto_done bin_data'
    end.
Proof.
  induction n as [ | n IH]; intros l Hlen Hstd lc p out.
  - destruct l; [ | simpl in Hlen; lia]. exists out. split; [simpl; lia | reflexivity].
  - destruct l as [ | a [ | b [ | c [ | d rest]]]]; try discriminate.
    { exists out. split; [simpl; lia | reflexivity]. }
    assert (Hrest : rest = [] \/ rest <> []) by (destruct rest; [left | right]; congruence).
    destruct Hrest as [-> | Hne].
    + simpl in Hstd.
      apply andb_prop in Hstd as [Hab Hcd]. apply andb_prop in Hab as [Ha Hb].
      rewrite (a2b_loop_data a) by exact Ha. cbn [Z.eqb Pos.eqb].
      rewrite (a2b_loop_data b) by exact Hb. cbn [Z.eqb Pos.eqb filter].
      rewrite (filter_pad_data a Ha), (filter_pad_data b Hb).
      apply orb_prop in Hcd as [Hcd | Hcd]; apply andb_prop in Hcd as [Hc Hd].
      * rewrite (a2b_loop_data c) by exact Hc. cbv zeta. cbn [Z.eqb Pos.eqb].
        rewrite (filter_pad_data c Hc).
        apply orb_prop in Hd as [Hd | Hd].
        -- rewrite (a2b_loop_data d) by exact Hd. cbv zeta. cbn [Z.eqb Pos.eqb].
           rewrite (filter_pad_data d Hd). eexists. split; [ | reflexivity].
           rewrite !length_app. simpl. lia.
        -- apply Z.eqb_eq in Hd. subst d. rewrite a2b_loop_pad_3.
           cbn [Z.eqb Base64.BASE64_PAD Pos.eqb]. eexists. split; [ | reflexivity].
           rewrite !length_app. simpl. lia.
      * apply Z.eqb_eq in Hc, Hd. subst c d. rewrite a2b_loop_pad_2.
        cbn [Z.eqb Base64.BASE64_PAD Pos.eqb]. eexists. split; [ | reflexivity].
        rewrite !length_app. simpl. lia.
    + assert (Hstd' : Base64.in_alphabet a && Base64.in_alphabet b
                      && Base64.in_alphabet c && Base64.in_alphabet d
                      && Base64.is_standard_codes rest = true).
      { destruct rest; [congruence | exact Hstd]. }
      apply andb_prop in Hstd' as [Habcd Hrest]. apply andb_prop in Habcd as [Habc Hd].
      apply andb_prop in Habc as [Hab Hc]. apply andb_prop in Hab as [Ha Hb].
      rewrite (a2b_loop_data a) by exact Ha. cbn [Z.eqb Pos.eqb].
      rewrite (a2b_loop_data b) by exact Hb. cbn [Z.eqb Pos.eqb].
      rewrite (a2b_loop_data c) by exact Hc. cbn [Z.eqb Pos.eqb].
      rewrite (a2b_loop_data d) by exact Hd. cbn [Z.eqb Pos.eqb filter].
      rewrite (filter_pad_data a Ha), (filter_pad_data b Hb),
        (filter_pad_data c Hc), (filter_pad_data d Hd).
      match goal with
      | |- context [Base64.a2b_loop rest 0 0 0 ?o] =>
          destruct (IH rest ltac:(simpl in Hlen; lia) Hrest 0 0 o) as (out' & Hcount & Hloop)
      end.
      exists out'. split; [ | exact Hloop].
      rewrite !length_app in Hcount. simpl in Hcount. simpl. lia.
Qed.

Lemma standard_is_ascii (s : string) :
  Base64.is_standard_base64 s = true -> is_ascii_text s = true.
Proof.
  intros Hstd. apply (is_standard_codes_chars _ _ (le_n _)) in Hstd.
  unfold is_ascii_text. apply forallb_forall. intros c Hc.
  rewrite Forall_forall in Hstd. apply Z.ltb_lt.
  destruct (Hstd c Hc) as [Ha | ->]; [ | unfold Base64.BASE64_PAD; lia].
  pose proof (in_alphabet_range c Ha). lia.
Qed.

Lemma length_codes (s : string) : List.length (Base64.codes s) = String.length s.
Proof.
  unfold Base64.codes. rewrite length_map.
  induction s as [ | a s IH]; simpl; [reflexivity | f_equal; exact IH].
Qed.

(** X2.  Standard base64 text is always decoded: the step does not raise, and
    every four characters give three bytes, less one byte per pad. *)
Theorem standard_base64_decodes (image_data : string) :
  Base64.is_standard_base64 image_data = true ->
  exists image_bytes,
    Base64.b64decode image_data = Return image_bytes /\
    (3 * String.length image_data
     = 4 * (List.length image_bytes + List.length (pad_characters image_data)))%nat.
Proof.
  intros Hstd.
  unfold Base64.b64decode, Base64.bytes_from_decode_data.
  pose proof (standard_is_ascii _ Hstd) as Hascii.
  unfold is_ascii_text in Hascii. rewrite Hascii. cbn [bind].
  destruct (a2b_loop_standard _ _ (le_n _) Hstd 0 0 []) as (out & Hcount & Hloop).
  rewrite length_codes in Hcount. fold (pad_characters image_data) in Hcount, Hloop.
  exists out. split; [ | simpl in Hcount; lia].
  unfold Base64.a2b_base64.
  destruct (pad_characters image_data); rewrite Hloop; reflexivity.
Qed.

Lemma standard_base64_decodes_witness :
  exists image_bytes,
    Base64.b64decode Fixture.red_png = Return image_bytes /\
    (3 * String.length Fixture.red_png
     = 4 * (List.length image_bytes + List.length (pad_characters Fixture.red_png)))%nat.
Proof. apply (standard_base64_decodes Fixture.red_png). vm_compute. reflexivity. Defined.

(** Once the loop has stopped at a padding, what follows is not read. *)
Lemma a2b_loop_done_app (l l' : list Z) :
  forall quad_pos leftchar pads bin_data bin_data',
    Base64.a2b_loop l quad_pos leftchar pads bin_data = Base64.Goto_done bin_data' ->
    Base64.a2b_loop (l ++ l') quad_pos leftchar pads bin_data = Base64.Goto_done bin_data'.
Proof.
  induction l as [ | x l IH]; intros q lc p out out'; [discriminate | ].
  cbn [Base64.a2b_loop app].
  repeat match goal with
         | |- context [if ?b then _ else _] => destruct b
         end;
    solve [intros H; exact H | apply IH].
Qed.

(** X3.  Text after the padding is ignored: a padded standard base64 text
    followed by any ASCII text decodes as the padded text alone. *)
Theorem text_after_padding_ignored (image_data trailing : string) :
  Base64.is_standard_base64 image_data = true ->
  pad_characters image_data <> [] ->
  is_ascii_text trailing = true ->
  Base64.b64decode (image_data ++ trailing) = Base64.b64decode image_data.
Proof.
  intros Hstd Hpads Htrail.
  pose proof (standard_is_ascii _ Hstd) as Hascii.
  unfold Base64.b64decode, Base64.bytes_from_decode_data.
  unfold is_ascii_text in Hascii, Htrail.
  rewrite codes_app, forallb_app, Hascii, Htrail. cbn [andb bind].
  destruct (a2b_loop_standard _ _ (le_n _) Hstd 0 0 []) as (out & _ & Hloop).
  fold (pad_characters image_data) in Hloop.
  destruct (pad_characters image_data); [congruence | ].
  unfold Base64.a2b_base64.
  rewrite (a2b_loop_done_app _ _ _ _ _ _ _ Hloop), Hloop. reflexivity.
Qed.

Lemma text_after_padding_ignored_witness :
  Base64.b64decode ("AA==" ++ "AAAA") = Base64.b64decode "AA==".
Proof. apply (text_after_padding_ignored "AA==" "AAAA"); [reflexivity | discriminate | reflexivity]. Defined.

(** Without data characters the loop ends where it started. *)
Lemma a2b_loop_no_data (l : list Z) :
  Forall (fun c => Base64.in_alphabet c = false) l ->
  forall leftchar pads bin_data,
    Base64.a2b_loop l 0 leftchar pads bin_data = Base64.Loop_end 0 bin_data.
Proof.
  induction 1 as [ | x l Hx _ IH]; intros lc p out; [reflexivity | ].
  destruct (Z.eq_dec x Base64.BASE64_PAD) as [-> | Hpad].
  - rewrite a2b_loop_pad_early by lia. apply IH.
  - rewrite a2b_loop_other by assumption. apply IH.
Qed.

(** X4.  An ASCII input without any character of the alphabet (the empty
    string, blanks, pads, punctuation) is not rejected by the decoding
    step: it decodes to no bytes at all. *)
Theorem blank_input_decodes_to_nothing (image_data : string) :
  is_ascii_text image_data = true ->
  data_characters image_data = [] ->
  Base64.b64decode image_data = Return [].
Proof.
  intros Hascii Hdata.
  unfold Base64.b64decode, Base64.bytes_from_decode_data.
  unfold is_ascii_text in Hascii. rewrite Hascii. cbn [bind].
  unfold Base64.a2b_base64.
  rewrite (a2b_loop_no_data _ (filter_empty _ _ Hdata)). reflexivity.
Qed.

Lemma blank_input_decodes_to_nothing_witness :
  Base64.b64decode " ==!" = Return [].
Proof. apply (blank_input_decodes_to_nothing " ==!"); reflexivity. Defined.

(** The bytes written never exceed three for every four characters read,
    whatever the characters.  [4 - quad_pos] characters of the open group
    are still to come before its bytes are all paid for. *)
Lemma a2b_loop_bound (l : list Z) :
  forall quad_pos leftchar pads bin_data budget,
    0 <= quad_pos <= 3 ->
    4 * Z.of_nat (List.length bin_data) + (if quad_pos =? 0 then 0 else 4 - quad_pos)
    <= budget ->
    match Base64.a2b_loop l quad_pos leftchar pads bin_data with
    | Base64.Goto_done bin_data' | Base64.Loop_end _ bin_data' =>
        4 * Z.of_nat (List.length bin_data') <= budget + 3 * Z.of_nat (List.length l)
    end.
Proof.
  induction l as [ | x l IH]; intros q lc p out B Hq HB.
  - cbn [Base64.a2b_loop List.length]. destruct (q =? 0); lia.
  - cbn [Base64.a2b_loop].
    assert (Hlen : Z.of_nat (List.length (x :: l)) = Z.of_nat (List.length l) + 1)
      by (cbn [List.length]; lia).
    rewrite Hlen.
    assert (Hstep : forall q' lc' p' out',
               0 <= q' <= 3 ->
               4 * Z.of_nat (List.length out') + (if q' =? 0 then 0 else 4 - q') <= B + 3 ->
               match Base64.a2b_loop l q' lc' p' out' with
               | Base64.Goto_done o | Base64.Loop_end _ o =>
                   4 * Z.of_nat (List.length o) <= B + 3 * (Z.of_nat (List.length l) + 1)
               end).
    { intros q' lc' p' out' Hq' HB'.
      pose proof (IH q' lc' p' out' (B + 3) Hq' HB') as H.
      destruct (Base64.a2b_loop l q' lc' p' out'); lia. }
    assert (Hskip : 4 * Z.of_nat (List.length out) + (if q =? 0 then 0 else 4 - q) <= B + 3)
      by lia.
    assert (Hout : 4 * Z.of_nat (List.length out) <= B) by (destruct (q =? 0); lia).
    repeat match goal with
           | |- context [if ?b then _ else _] => destruct b eqn:?
           end;
      repeat match goal with
             | H : (_ =? _) = true |- _ => apply Z.eqb_eq in H
             | H : (_ =? _) = false |- _ => apply Z.eqb_neq in H
             end;
      try (apply Hstep; [lia | ]);
      try rewrite length_app; cbn [List.length Z.eqb]; try lia.
Qed.

(** X5.  Whatever the input, a decoding that returns has written at most three
    bytes for every four characters of the input. *)
Theorem decoded_length_bound (image_data : string) (image_bytes : list Byte.byte) :
  Base64.b64decode image_data = Return image_bytes ->
  (4 * List.length image_bytes <= 3 * String.length image_data)%nat.
Proof.
  unfold Base64.b64decode, Base64.bytes_from_decode_data.
  destruct (forallb (fun c => c <? 128) (Base64.codes image_data)); [ | discriminate].
  cbn [bind]. unfold Base64.a2b_base64.
  pose proof (a2b_loop_bound (Base64.codes image_data) 0 0 0 [] 0 ltac:(lia) ltac:(simpl; lia))
    as Hbound.
  rewrite length_codes in Hbound.
  destruct (Base64.a2b_loop (Base64.codes image_data) 0 0 0 []) as [o | q o].
  - intros [= <-]. lia.
  - destruct (q =? 0); [intros [= <-]; lia | ].
    destruct (q =? 1); discriminate.
Qed.

Lemma decoded_length_bound_witness :
  (4 * List.length [Byte.x00; Byte.x10] <= 3 * String.length "AB=C=")%nat.
Proof. apply (decoded_length_bound "AB=C=" [Byte.x00; Byte.x10]). reflexivity. Defined.

(** * Further properties of the class name handling (lines 45 to 47) *)

Lemma startswith_app (p s : string) :
  Str.startswith p s = true -> exists rest, s = p ++ rest.
Proof.
  revert s. induction p as [ | a p IH]; intros s H.
  - exists s. reflexivity.
  - destruct s as [ | b s]; [discriminate | ]. cbn [Str.startswith] in H.
    apply andb_prop in H as [Hab Hps]. apply Ascii.eqb_eq in Hab. subst b.
    destruct (IH s Hps) as [rest ->]. exists rest. reflexivity.
Qed.

Lemma append_assoc (a b c : string) : (a ++ b) ++ c = a ++ (b ++ c).
Proof. induction a as [ | x a IH]; simpl; [reflexivity | f_equal; exact IH]. Qed.

Lemma rev_append_app (acc s : string) :
  Str.rev_append acc s = Str.rev_append acc EmptyString ++ s.
Proof.
  revert s. induction acc as [ | c acc IH]; intros s; [reflexivity | ].
  cbn [Str.rev_append]. rewrite (IH (String c s)), (IH (String c EmptyString)).
  rewrite append_assoc. reflexivity.
Qed.

(** Dropping the rest of a separator. *)
Lemma split_from_skip (sep p cur rest : string) :
  Str.split_from sep (String.length p) cur (p ++ rest) = Str.split_from sep O cur rest.
Proof.
  induction p as [ | a p IH]; [reflexivity | ].
  cbn [String.length String.append Str.split_from]. exact IH.
Qed.

Lemma split_from_cons (sep : string) (skip : nat) (cur s : string) :
  exists piece pieces, Str.split_from sep skip cur s = piece :: pieces.
Proof.
  revert skip cur. induction s as [ | c s IH]; intros skip cur.
  - cbn [Str.split_from]. eauto.
  - cbn [Str.split_from]. destruct skip as [ | k]; [ | apply IH].
    destruct (Str.startswith sep (String c s)); [eauto | apply IH].
Qed.

Lemma str_join_cons (sep piece : string) (skip : nat) (cur s : string) :
  str_join sep (piece :: Str.split_from sep skip cur s)
  = piece ++ sep ++ str_join sep (Str.split_from sep skip cur s).
Proof.
  destruct (split_from_cons sep skip cur s) as (x & l & ->). reflexivity.
Qed.

Lemma length_append (a b : string) :
  String.length (a ++ b) = (String.length a + String.length b)%nat.
Proof. induction a as [ | c a IH]; simpl; [reflexivity | f_equal; exact IH]. Qed.

Lemma split_from_join (a : ascii) (sep' : string) (n : nat) :
  forall s cur,
    (String.length s <= n)%nat ->
    str_join (String a sep') (Str.split_from (String a sep') O cur s)
    = Str.rev_append cur s.
Proof.
  induction n as [ | n IH]; intros s cur Hlen.
  - destruct s; [reflexivity | simpl in Hlen; lia].
  - destruct s as [ | c s]; [reflexivity | ].
    cbn [Str.split_from].
    destruct (Str.startswith (String a sep') (String c s)) eqn:Hstart.
    + destruct (startswith_app _ _ Hstart) as [rest Hrest].
      cbn [String.append] in Hrest. injection Hrest as -> ->.
      rewrite str_join_cons.
      cbn [String.length]. rewrite Nat.sub_succ, Nat.sub_0_r, split_from_skip.
      rewrite IH.
      * cbn [Str.rev_append].
        rewrite (rev_append_app cur (String a (sep' ++ rest))). reflexivity.
      * cbn [String.length] in Hlen. rewrite length_append in Hlen. lia.
    + rewrite IH by (cbn [String.length] in Hlen; lia). reflexivity.
Qed.

Lemma str_join_split (s sep : string) :
  sep <> EmptyString -> str_join sep (Str.split s sep) = s.
Proof.
  intros Hsep. destruct sep as [ | a sep']; [congruence | ].
  unfold Str.split. rewrite (split_from_join a sep' _ s EmptyString (le_n _)).
  reflexivity.
Qed.

(** X6.  Splitting on a separator and joining the pieces with it gives the
    string back, for every string and every non-empty separator. *)
Theorem split_join_round_trip (s sep : string) :
  sep <> EmptyString -> str_join sep (Str.split s sep) = s.
Proof.
  intros Hsep. destruct sep as [ | a sep']; [congruence | ].
  unfold Str.split.
  rewrite (split_from_join a sep' (String.length s) s EmptyString (le_n _)).
  reflexivity.
Qed.

Lemma split_join_round_trip_witness :
  str_join "__" (Str.split "Tomato__Yellow_Leaf_Curl_Virus" "__")
  = "Tomato__Yellow_Leaf_Curl_Virus".
Proof. apply (split_join_round_trip "Tomato__Yellow_Leaf_Curl_Virus" "__"). discriminate. Defined.

(** Replacing one character by another and back gives the string back when
    the string did not hold the other character. *)
Lemma replace_round_trip (old new : ascii) (s : string) :
  Str.contains (String new EmptyString) s = false ->
  Str.replace (Str.replace s old new) new old = s.
Proof.
  induction s as [ | c s IH]; [reflexivity | ].
  cbn [Str.contains Str.startswith Str.replace]. intros H.
  apply orb_false_elim in H as [Hc Hs]. rewrite andb_true_r in Hc.
  rewrite (IH Hs). f_equal.
  destruct (Ascii.eqb_spec c old) as [-> | Hold].
  - rewrite Ascii.eqb_refl. reflexivity.
  - rewrite Ascii.eqb_sym, Hc. reflexivity.
Qed.

(** After [replace] the replaced character is gone. *)
Lemma replace_removes (old new : ascii) (s : string) :
  old <> new -> Str.contains (String old EmptyString) (Str.replace s old new) = false.
Proof.
  intros Hne. induction s as [ | c s IH]; [reflexivity | ].
  cbn [Str.contains Str.startswith Str.replace]. rewrite IH, andb_true_r, orb_false_r.
  destruct (Ascii.eqb_spec c old) as [-> | Hold]; apply Ascii.eqb_neq; congruence.
Qed.

(** X7.  The reconstruction of a class name does not depend on the 38 names of
    the table: whenever a class name splits into exactly a plant and a
    disease part, and the disease part holds no space, the plant,
    the separator and the disease name with its spaces turned back into
    underscores give the class name. *)
Theorem class_name_round_trip (predicted_class plant_name disease_raw : string) :
  Str.split predicted_class "__" = [plant_name; disease_raw] ->
  Str.contains " " disease_raw = false ->
  plant_name ++ "__" ++ Str.replace (Str.replace disease_raw "_" " ") " " "_"
  = predicted_class.
Proof.
  intros Hsplit Hspace.
  rewrite (replace_round_trip "_" " " disease_raw Hspace).
  pose proof (str_join_split predicted_class "__" ltac:(discriminate)) as Hjoin.
  rewrite Hsplit in Hjoin. exact Hjoin.
Qed.

Lemma class_name_round_trip_witness :
  "Corn" ++ "__" ++ Str.replace (Str.replace "Northern_Leaf_Blight" "_" " ") " " "_"
  = "Corn__Northern_Leaf_Blight".
Proof.
  apply (class_name_round_trip "Corn__Northern_Leaf_Blight" "Corn" "Northern_Leaf_Blight");
    reflexivity.
Defined.

(** * Further properties of the result (lines 45 to 98) *)

(** X8.  For every successful prediction the disease name holds no underscore:
    all of them were replaced by spaces. *)
Theorem disease_name_has_no_underscore {lib : Imaging} (hash : string -> Z)
        (image_data : string) :
  dict_find (model_prediction hash image_data) "success" = Some (PyBool true) ->
  exists disease,
    dict_find (model_prediction hash image_data) "disease" = Some (PyStr disease) /\
    Str.contains "_" disease = false.
Proof.
  intros Hok.
  destruct (success_inv hash _ Hok) as (text & _ & Hr).
  destruct (classify_inv _ _ Hr) as (? & ? & raw & ? & ? & ? & _ & _ & _ & Hshape).
  cbv zeta in Hshape. destruct Hshape as (_ & _ & _ & ->).
  exists (Str.replace raw "_" " "). split; [reflexivity | ].
  apply replace_removes. discriminate.
Qed.

Lemma disease_name_has_no_underscore_witness :
  exists disease,
    dict_find (@model_prediction Fixture.imaging hash_seed3 Fixture.red_png) "disease"
    = Some (PyStr disease) /\
    Str.contains "_" disease = false.
Proof.
  apply (@disease_name_has_no_underscore Fixture.imaging hash_seed3 Fixture.red_png).
  vm_compute. reflexivity.
Defined.

(** X9.  A plant found healthy is reported like a disease: the description is
    ["healthy affecting "] and the plant name, prevention and treatment are
    the generic texts, and the severity is ["Medium"]. *)
Theorem healthy_is_reported_as_disease {lib : Imaging} (hash : string -> Z)
        (image_data : string) :
  dict_find (model_prediction hash image_data) "success" = Some (PyBool true) ->
  dict_find (model_prediction hash image_data) "disease" = Some (PyStr "healthy") ->
  exists plant,
    dict_find (model_prediction hash image_data) "plant" = Some (PyStr plant) /\
    dict_find (model_prediction hash image_data) "description"
    = Some (PyStr ("healthy affecting " ++ plant)) /\
    dict_find (model_prediction hash image_data) "prevention"
    = Some (PyStr generic_prevention) /\
    dict_find (model_prediction hash image_data) "treatment"
    = Some (PyStr generic_treatment) /\
    dict_find (model_prediction hash image_data) "severity" = Some (PyStr "Medium").
Proof.
  intros Hok.
  destruct (success_inv hash _ Hok) as (text & _ & Hr).
  destruct (classify_inv _ _ Hr) as (? & plant & raw & d & p & t & _ & _ & _ & Hshape).
  cbv zeta in Hshape. destruct Hshape as (Hd & Hp & Ht & ->).
  intros Hdisease. cbn in Hdisease. injection Hdisease as Hdisease.
  rewrite Hdisease in *.
  cbn in Hd, Hp, Ht. injection Hd as <-. injection Hp as <-. injection Ht as <-.
  exists plant. repeat split.
Qed.

Lemma healthy_is_reported_as_disease_witness :
  exists plant,
    dict_find (@model_prediction Fixture.imaging hash_seed0 Fixture.red_png) "plant"
    = Some (PyStr plant) /\
    dict_find (@model_prediction Fixture.imaging hash_seed0 Fixture.red_png) "description"
    = Some (PyStr ("healthy affecting " ++ plant)) /\
    dict_find (@model_prediction Fixture.imaging hash_seed0 Fixture.red_png) "prevention"
    = Some (PyStr generic_prevention) /\
    dict_find (@model_prediction Fixture.imaging hash_seed0 Fixture.red_png) "treatment"
    = Some (PyStr generic_treatment) /\
    dict_find (@model_prediction Fixture.imaging hash_seed0 Fixture.red_png) "severity"
    = Some (PyStr "Medium").
Proof.
  apply (@healthy_is_reported_as_disease Fixture.imaging hash_seed0 Fixture.red_png);
    vm_compute; reflexivity.
Defined.

(** The index can be read back from the result. *)
Lemma class_index_classify (i : Z) :
  0 <= i < 38 -> exists r, classify i = Return r /\ class_index r = Some i.
Proof.
  intros Hi.
  each_index Hi ltac:(eexists; split; [reflexivity | vm_compute; reflexivity]).
Qed.

Lemma classify_injective (i j : Z) :
  0 <= i < 38 -> 0 <= j < 38 -> classify i = classify j -> i = j.
Proof.
  intros Hi Hj Heq.
  destruct (class_index_classify i Hi) as (ri & Hri & Hii).
  destruct (class_index_classify j Hj) as (rj & Hrj & Hjj).
  rewrite Hri, Hrj in Heq. injection Heq as ->. congruence.
Qed.

(** X10.  The image and the interpreter act on a successful result through
    [result_index] alone: two calls that get as far as the hash, on any two
    inputs and under any two hash secrets, return the same result exactly
    when their indices are equal. *)
Theorem results_agree_iff_indices_agree {lib : Imaging} (hash1 hash2 : string -> Z)
        (image1 image2 text1 text2 : string) :
  mean_text image1 = Return text1 ->
  mean_text image2 = Return text2 ->
  (model_prediction hash1 image1 = model_prediction hash2 image2
   <-> hash1 text1 mod 38 = hash2 text2 mod 38).
Proof.
  intros H1 H2. unfold model_prediction.
  rewrite (try_block_after_mean hash1 _ _ H1), (try_block_after_mean hash2 _ _ H2).
  pose proof (hash_index_range (hash1 text1)) as Hi.
  pose proof (hash_index_range (hash2 text2)) as Hj.
  split.
  - intros Heq. apply classify_injective; try assumption.
    destruct (classify_returns _ Hi) as [ri Hri].
    destruct (classify_returns _ Hj) as [rj Hrj].
    rewrite Hri, Hrj in *. congruence.
  - intros ->. reflexivity.
Qed.

Lemma results_agree_iff_indices_agree_witness :
  @model_prediction Fixture.imaging hash_seed0 Fixture.red_png
  = @model_prediction Fixture.imaging hash_seed3 Fixture.red_png
  <-> hash_seed0 "0.3333333333333333" mod 38 = hash_seed3 "0.3333333333333333" mod 38.
Proof.
  apply (@results_agree_iff_indices_agree Fixture.imaging hash_seed0 hash_seed3
           Fixture.red_png Fixture.red_png);
    vm_compute; reflexivity.
Defined.

(** * Further properties of the entry point (lines 106 to 112) *)

Lemma all_printable_app (a b : string) :
  all_printable (a ++ b) = all_printable a && all_printable b.
Proof.
  unfold all_printable. induction a as [ | c a IH]; [reflexivity | ].
  cbn [String.append list_ascii_of_string forallb]. rewrite IH, andb_assoc. reflexivity.
Qed.

Lemma escape_char_printable (c : ascii) : all_printable (Json.escape_char c) = true.
Proof. destruct c as [[] [] [] [] [] [] [] []]; reflexivity. Qed.

Lemma escape_printable (s : string) : all_printable (Json.escape s) = true.
Proof.
  induction s as [ | c s IH]; [reflexivity | ].
  cbn [Json.escape]. rewrite all_printable_app, escape_char_printable, IH. reflexivity.
Qed.

Lemma encode_str_printable (s : string) : all_printable (Json.encode_str s) = true.
Proof.
  unfold Json.encode_str.
  change (String Json.dquote (Json.escape s ++ String Json.dquote EmptyString))
    with (String Json.dquote EmptyString ++ (Json.escape s ++ String Json.dquote EmptyString)).
  rewrite !all_printable_app, escape_printable. reflexivity.
Qed.

Lemma string_of_uint_printable (d : Decimal.uint) :
  all_printable (NilEmpty.string_of_uint d) = true.
Proof. induction d; cbn [NilEmpty.string_of_uint]; [reflexivity | exact IHd ..]. Qed.

Lemma string_of_uint_zero_printable (d : Decimal.uint) :
  all_printable (NilZero.string_of_uint d) = true.
Proof.
  destruct d; [reflexivity | ..];
    unfold NilZero.string_of_uint; apply string_of_uint_printable.
Qed.

Lemma of_Z_printable (n : Z) : all_printable (Str.of_Z n) = true.
Proof.
  unfold Str.of_Z, NilZero.string_of_int.
  destruct (Z.to_int n) as [d | d]; [apply string_of_uint_zero_printable | ].
  change (String "-" (NilZero.string_of_uint d))
    with ("-" ++ NilZero.string_of_uint d).
  rewrite all_printable_app, string_of_uint_zero_printable. reflexivity.
Qed.

Lemma encode_printable (v : pyobj) : all_printable (Json.encode v) = true.
Proof.
  destruct v as [[ | ] | n | s]; cbn [Json.encode];
    [reflexivity | reflexivity | apply of_Z_printable | apply encode_str_printable].
Qed.

Lemma items_printable (d : pydict) : all_printable (Json.items d) = true.
Proof.
  induction d as [ | [k v] d IH]; [reflexivity | ].
  destruct d as [ | kv d].
  - cbn [Json.items].
    rewrite !all_printable_app, encode_str_printable, encode_printable. reflexivity.
  - change (Json.items ((k, v) :: kv :: d))
      with (Json.encode_str k ++ ": " ++ Json.encode v ++ ", " ++ Json.items (kv :: d)).
    rewrite !all_printable_app, encode_str_printable, encode_printable, IH. reflexivity.
Qed.

Lemma dumps_printable (d : pydict) : all_printable (Json.dumps d) = true.
Proof.
  unfold Json.dumps. rewrite !all_printable_app, items_printable. reflexivity.
Qed.

Lemma list_getitem_in_range {A : Type} (l : list A) (i : Z) :
  0 <= i < Z.of_nat (List.length l) ->
  exists x, list_getitem l i = Return x /\ nth_error l (Z.to_nat i) = Some x.
Proof.
  intros Hi. unfold list_getitem.
  assert (H0 : (i <? 0) = false) by (apply Z.ltb_ge; lia).
  assert (H1 : (Z.of_nat (List.length l) <=? i) = false) by (apply Z.leb_gt; lia).
  rewrite H0. cbv beta iota zeta. rewrite H0, H1. cbn [orb].
  destruct (nth_error l (Z.to_nat i)) as [x | ] eqn:Hnth;
    [exists x; split; reflexivity | ].
  apply nth_error_None in Hnth. lia.
Qed.

(** X11.  Whatever the arguments, the libraries and the input, the script ends
    with status 0 and writes exactly one line, made of printable ASCII
    characters only: failures are told in the JSON text, never by the exit
    status, and no message can break the line. *)
Theorem script_prints_one_line {lib : Imaging} (hash : string -> Z)
        (argv : list string) :
  exists line,
    stdout (events (main hash argv)) = line ++ String (ascii_of_nat 10) EmptyString /\
    all_printable line = true /\
    exit_status (main hash argv) = 0.
Proof.
  unfold main. destruct (1 <? Z.of_nat (List.length argv)) eqn:Hlen.
  - apply Z.ltb_lt in Hlen.
    destruct (list_getitem_in_range argv 1 ltac:(lia)) as (image_data & -> & _).
    exists (Json.dumps (model_prediction hash image_data)).
    split; [reflexivity | ]. split; [apply dumps_printable | reflexivity].
  - eexists. split; [reflexivity | ]. split; [apply dumps_printable | reflexivity].
Qed.

(** Each escaped character is read back as the character. *)
Lemma json_unescape_char (c : ascii) (rest : string) :
  json_unescape (Json.escape_char c ++ rest) = String c (json_unescape rest).
Proof. destruct c as [[] [] [] [] [] [] [] []]; reflexivity. Qed.

Lemma json_unescape_escape (s : string) : json_unescape (Json.escape s) = s.
Proof.
  induction s as [ | c s IH]; [reflexivity | ].
  cbn [Json.escape]. rewrite json_unescape_char, IH. reflexivity.
Qed.

Lemma append_last_inj (a b : string) (q : ascii) :
  a ++ String q EmptyString = b ++ String q EmptyString -> a = b.
Proof.
  revert b. induction a as [ | x a IH]; intros [ | y b] H; cbn [String.append] in H.
  - reflexivity.
  - injection H as _ H. destruct b; discriminate H.
  - injection H as _ H. destruct a; discriminate H.
  - injection H as -> H. f_equal. apply IH. exact H.
Qed.

(** X13.  On strings whose code points are all below 256, the escaping done
    by [json.dumps] loses nothing: such a string can be read back from its
    escaped form, and two different such strings are never written the same
    way.  (Code points from 256 on, lone surrogates among them, are outside
    the strings modelled and outside this statement.) *)
Theorem json_escape_round_trip (s1 s2 : string) :
  json_unescape (Json.escape s1) = s1 /\
  (Json.encode_str s1 = Json.encode_str s2 -> s1 = s2).
Proof.
  split; [apply json_unescape_escape | ].
  unfold Json.encode_str. intros H. injection H as H.
  apply append_last_inj in H.
  rewrite <- (json_unescape_escape s1), H. apply json_unescape_escape.
Qed.

(** * The errors of the decoding step (line 11) *)

(** X14.  The decoding step raises one of three errors only: the
    [ValueError] about non-ASCII characters, exactly when the input holds
    one; otherwise [binascii.Error] with ["Incorrect padding"], or with the
    message that gives a number of data characters that is 1 more than a
    multiple of 4. *)
Theorem decode_errors (image_data : string) (e : py_exception) :
  Base64.b64decode image_data = Raise e ->
  (is_ascii_text image_data = false /\
   e = PyExc ValueError "string argument should contain only ASCII characters")
  \/ (is_ascii_text image_data = true /\
      e = PyExc BinasciiError "Incorrect padding")
  \/ (is_ascii_text image_data = true /\
      exists n : nat,
        (n mod 4 = 1)%nat /\
        e = PyExc BinasciiError
              ("Invalid base64-encoded string: number of data characters ("
               ++ Str.of_nat n ++ ") cannot be 1 more than a multiple of 4")).
Proof.
  unfold Base64.b64decode, Base64.bytes_from_decode_data, is_ascii_text.
  destruct (forallb (fun c => c <? 128) (Base64.codes image_data)); cbn [bind].
  - unfold Base64.a2b_base64.
    destruct (Base64.a2b_loop (Base64.codes image_data) 0 0 0 []) as [o | q o];
      [discriminate | ].
    destruct (q =? 0); [discriminate | ].
    destruct (q =? 1); intros [= <-].
    + right. right. split; [reflexivity | ].
      exists (List.length o / 3 * 4 + 1)%nat. split; [ | reflexivity].
      rewrite Nat.add_comm, Nat.Div0.mod_add. reflexivity.
    + right. left. split; reflexivity.
  - intros [= <-]. left. split; reflexivity.
Qed.

Lemma decode_errors_witness :
  (is_ascii_text (String (ascii_of_nat 233) "AAA") = false /\
   PyExc ValueError "string argument should contain only ASCII characters"
   = PyExc ValueError "string argument should contain only ASCII characters")
  \/ (is_ascii_text (String (ascii_of_nat 233) "AAA") = true /\
      PyExc ValueError "string argument should contain only ASCII characters"
      = PyExc BinasciiError "Incorrect padding")
  \/ (is_ascii_text (String (ascii_of_nat 233) "AAA") = true /\
      exists n : nat,
        (n mod 4 = 1)%nat /\
        PyExc ValueError "string argument should contain only ASCII characters"
        = PyExc BinasciiError
              ("Invalid base64-encoded string: number of data characters ("
               ++ Str.of_nat n ++ ") cannot be 1 more than a multiple of 4")).
Proof.
  apply (decode_errors (String (ascii_of_nat 233) "AAA")
           (PyExc ValueError "string argument should contain only ASCII characters")).
  reflexivity.
Defined.
